(** * img-gen: the image-generation proxy route and the page's generation handler

    Two pieces of the repository are embedded here:

    - [Gateway.POST], from [src/app/api/generate-friendli/route.ts]: the
      server-side route that checks its configuration, reshapes the client's
      request and forwards it to the Friendli endpoint;
    - [Composer.handleGenerateClick], from the page component
      ([ImageGeneratorPage]): the handler behind the "Generate Image" button.

    Both are [async] functions over JSON data.  They are written below in a
    small state-and-exception monad; the values are JavaScript values as
    [JSON.parse] produces them, plus [undefined].  What the platform decides
    (the outcome of a [fetch], of reading a body, the clock) is an input of the
    model; what the language decides (truthiness, property access, string
    conversion, [trim], [includes], [split], [slice]) is defined here, and
    so is what the [Response] class decides: that a body is read once, and
    the statuses a reply can be built for. *)

From Stdlib Require Import List String Ascii ZArith NArith Bool Lia DecimalString.
Import ListNotations.

Set Implicit Arguments.
Set Warnings "-register-all".

(* ================================================================== *)
(** ** JavaScript strings, values and completions *)
(* ================================================================== *)

Module Js.

(** A JavaScript string is a sequence of UTF-16 code units. *)
Definition jsstring := list N.

(** Source literals are ASCII; [str] turns one into its code units. *)
Definition str (s : string) : jsstring :=
  map N_of_ascii (list_ascii_of_string s).

Arguments str s : simpl never.

Definition jsstring_eqb (a b : jsstring) : bool :=
  if list_eq_dec N.eq_dec a b then true else false.

(** [!s] for a string: only the empty string is falsy. *)
Definition string_truthy (s : jsstring) : bool :=
  match s with [] => false | _ :: _ => true end.

(** White space and line terminators of ECMAScript, the code units that
    [String.prototype.trim] removes. *)
Definition is_whitespace (c : N) : bool :=
  ((9 <=? c) && (c <=? 13) || (c =? 32) || (c =? 160) || (c =? 5760)
   || (8192 <=? c) && (c <=? 8202) || (c =? 8232) || (c =? 8233)
   || (c =? 8239) || (c =? 8287) || (c =? 12288) || (c =? 65279))%N.

Fixpoint trimStart (s : jsstring) : jsstring :=
  match s with
  | [] => []
  | c :: r => if is_whitespace c then trimStart r else s
  end.

Definition trimEnd (s : jsstring) : jsstring := rev (trimStart (rev s)).

Definition trim (s : jsstring) : jsstring := trimEnd (trimStart s).

Fixpoint starts_with (p s : jsstring) : bool :=
  match p, s with
  | [], _ => true
  | _ :: _, [] => false
  | a :: p', b :: s' => (a =? b)%N && starts_with p' s'
  end.

(** [s.includes(p)] *)
Fixpoint includes (s p : jsstring) : bool :=
  starts_with p s || match s with [] => false | _ :: r => includes r p end.

(** [s.split(sep)] for a separator of one code unit. *)
Fixpoint split_on (sep : N) (s : jsstring) : list jsstring :=
  match s with
  | [] => [[]]
  | c :: r =>
      if (c =? sep)%N then [] :: split_on sep r
      else match split_on sep r with
           | h :: t => (c :: h) :: t
           | [] => [[c]]
           end
  end.

(** [xs.slice(0, n)] *)
Definition slice0 {A : Type} (n : nat) (xs : list A) : list A := firstn n xs.

(** JavaScript values: what [JSON.parse] yields, and [undefined].  An object
    is its list of own properties; a read returns the first binding of the
    name.  The type is parametric in the numbers, which the program copies,
    tests and prints but never computes with. *)
Inductive jsval (num : Type) : Type :=
| JUndefined
| JNull
| JBool (b : bool)
| JNum (n : num)
| JStr (s : jsstring)
| JArr (xs : list (jsval num))
| JObj (props : list (jsstring * jsval num)).

Arguments JUndefined {num}.
Arguments JNull {num}.
Arguments JBool {num} b.
Arguments JStr {num} s.

(** An exception object: every value the two handlers can see thrown is an
    [Error] (a [TypeError] or [SyntaxError] of the platform, or the [Error]s
    the handler constructs itself). *)
Record JsError : Type := mkError { err_name : jsstring; err_message : jsstring }.

(** How a statement ends: normally with a value, or by throwing. *)
Inductive completion (A : Type) : Type :=
| Normal (a : A)
| Throw (e : JsError).

Arguments Throw {A} e.

(** What the engine fixes and the program only uses: the number type with its
    truthiness and conversions, the text [JSON.stringify] writes for a
    document, and the wording of the engine's own errors. *)
Class Engine : Type := {
  number : Type;
  (** [false] for [0], [-0] and [NaN] *)
  number_truthy : number -> bool;
  (** [String(n)] *)
  number_to_string : number -> jsstring;
  (** [Number(s)] *)
  Number_of_string : jsstring -> number;
  (** the text of a JSON document (no [undefined] inside) *)
  JSON_text : jsval number -> jsstring;
  (** message of the [TypeError] for reading property [k] of [null]
      ([true]) or [undefined] ([false]) *)
  nullish_read_message : bool -> jsstring -> jsstring;
  (** message of the [TypeError] for an object with no primitive value *)
  to_primitive_message : jsstring;
  (** message of the [TypeError] for reading a body that has been read *)
  body_used_message : jsstring;
  (** message of the [RangeError] for a response status outside 200..599 *)
  status_range_message : jsstring;
  (** message of the [TypeError] for a body given with a null-body status *)
  null_body_status_message : Z -> jsstring
}.

Section Values.
Context {E : Engine}.

Definition value : Type := jsval number.

Definition TypeError (msg : jsstring) : JsError := mkError (str "TypeError") msg.

(** [new Error(msg)] *)
Definition new_Error (msg : jsstring) : JsError := mkError (str "Error") msg.

(** ToBoolean *)
Definition truthy (v : value) : bool :=
  match v with
  | JUndefined | JNull => false
  | JBool b => b
  | JNum n => number_truthy n
  | JStr s => string_truthy s
  | JArr _ | JObj _ => true
  end.

(** [a || b] *)
Definition js_or (a b : value) : value := if truthy a then a else b.

Fixpoint own_property (k : jsstring) (props : list (jsstring * value)) : value :=
  match props with
  | [] => JUndefined
  | (k', v) :: rest => if jsstring_eqb k k' then v else own_property k rest
  end.

Fixpoint has_own (k : jsstring) (props : list (jsstring * value)) : bool :=
  match props with
  | [] => false
  | (k', _) :: rest => jsstring_eqb k k' || has_own k rest
  end.

(** [v.k] for a name [k] that no built-in prototype defines (every name the
    handlers read is one: [prompt], [detail], [error], [message], [data],
    [url], ...): an object answers with its own property, any other value
    with [undefined], and [null] and [undefined] throw. *)
Definition get (v : value) (k : jsstring) : completion value :=
  match v with
  | JUndefined => Throw (TypeError (nullish_read_message false k))
  | JNull => Throw (TypeError (nullish_read_message true k))
  | JObj props => Normal (own_property k props)
  | _ => Normal JUndefined
  end.

(** The property name of an array index. *)
Definition index_key (i : nat) : jsstring :=
  str (NilZero.string_of_uint (Nat.to_uint i)).

(** [v[i]]: an element of an array, a one-unit string of a string, the
    property named by the index of an object. *)
Definition get_index (v : value) (i : nat) : completion value :=
  match v with
  | JUndefined => Throw (TypeError (nullish_read_message false (index_key i)))
  | JNull => Throw (TypeError (nullish_read_message true (index_key i)))
  | JArr xs => Normal (nth i xs JUndefined)
  | JStr s => Normal (match nth_error s i with
                      | Some c => JStr [c]
                      | None => JUndefined
                      end)
  | JObj props => Normal (own_property (index_key i) props)
  | _ => Normal JUndefined
  end.

Definition is_undefined (v : value) : bool :=
  match v with JUndefined => true | _ => false end.

Definition is_nullish (v : value) : bool :=
  match v with JUndefined | JNull => true | _ => false end.

(** [v?.k] and [v?.[i]]: never throw on a parsed value. *)
Definition opt_get (v : value) (k : jsstring) : value :=
  match get v k with Normal x => x | Throw _ => JUndefined end.

Definition opt_get_index (v : value) (i : nat) : value :=
  match get_index v i with Normal x => x | Throw _ => JUndefined end.

(** ToString, as a template literal and [new Error] apply it.  An array joins
    its elements with commas, [null] and [undefined] elements counting as
    empty; a plain object is ["[object Object]"], unless it has an own
    property [toString], which (being data, not a function) leaves the object
    without a primitive value: a [TypeError]. *)
Fixpoint ToString (v : value) : completion jsstring :=
  match v with
  | JUndefined => Normal (str "undefined")
  | JNull => Normal (str "null")
  | JBool true => Normal (str "true")
  | JBool false => Normal (str "false")
  | JNum n => Normal (number_to_string n)
  | JStr s => Normal s
  | JArr xs =>
      (fix join (l : list value) (first : bool) : completion jsstring :=
         match l with
         | [] => Normal []
         | x :: r =>
             match (match x with
                    | JUndefined | JNull => Normal []
                    | _ => ToString x
                    end) with
             | Throw e => Throw e
             | Normal s =>
                 match join r false with
                 | Throw e => Throw e
                 | Normal t => Normal ((if first then [] else str ",") ++ s ++ t)
                 end
             end
         end) xs true
  | JObj props =>
      if has_own (str "toString") props
      then Throw (TypeError to_primitive_message)
      else Normal (str "[object Object]")
  end.

(** The document [JSON.stringify] writes for a value: a property whose value
    is [undefined] is left out, an [undefined] array element becomes
    [null]. *)
Fixpoint json_document (v : value) : value :=
  match v with
  | JArr xs =>
      JArr (map (fun x => match x with
                          | JUndefined => JNull
                          | _ => json_document x
                          end) xs)
  | JObj props =>
      JObj ((fix walk (l : list (jsstring * value)) : list (jsstring * value) :=
               match l with
               | [] => []
               | (k, JUndefined) :: r => walk r
               | (k, x) :: r => (k, json_document x) :: walk r
               end) props)
  | _ => v
  end.

(** [JSON.stringify(v)] *)
Definition JSON_stringify (v : value) : jsstring := JSON_text (json_document v).

Definition RangeError (msg : jsstring) : JsError := mkError (str "RangeError") msg.

End Values.

(** *** The monad of the handlers: a store threaded through, and exceptions *)

Definition M (S A : Type) : Type := S -> completion A * S.

Definition ret {S A : Type} (a : A) : M S A := fun s => (Normal a, s).

Definition bind {S A B : Type} (m : M S A) (k : A -> M S B) : M S B :=
  fun s =>
    match m s with
    | (Normal a, s') => k a s'
    | (Throw e, s') => (Throw e, s')
    end.

(** [throw e] *)
Definition throw {S A : Type} (e : JsError) : M S A := fun s => (Throw e, s).

(** [await] on an outcome the platform has decided.  A handler is followed
    from its start to its end: what other handlers do to the shared state
    while this one waits is not part of the model, so that a statement
    about the state a handler leaves is one about the handler's own
    updates. *)
Definition await {S A : Type} (c : completion A) : M S A := fun s => (c, s).

(** [try { m } catch (e) { h e }]: what [m] did to the store before it threw
    stays done. *)
Definition try_catch {S A : Type} (m : M S A) (h : JsError -> M S A) : M S A :=
  fun s =>
    match m s with
    | (Normal a, s') => (Normal a, s')
    | (Throw e, s') => h e s'
    end.

(** [try { m } finally { f }] *)
Definition try_finally {S A : Type} (m : M S A) (f : M S unit) : M S A :=
  fun s =>
    match m s with
    | (c, s') =>
        match f s' with
        | (Normal _, s'') => (c, s'')
        | (Throw e, s'') => (Throw e, s'')
        end
    end.

(** A store update. *)
Definition modify {S : Type} (f : S -> S) : M S unit := fun s => (Normal tt, f s).

Declare Scope js_scope.
Delimit Scope js_scope with js.
Notation "x <- m ;; k" := (bind m (fun x => k))
  (at level 61, m at next level, right associativity) : js_scope.
Notation "m ;;; k" := (bind m (fun _ => k))
  (at level 61, right associativity) : js_scope.

(** *** The network *)

(** One call of [fetch(url, { method, headers, body })]. *)
Record FetchCall : Type := mkCall {
  call_url : jsstring;
  call_method : jsstring;
  call_headers : list (jsstring * jsstring);
  call_body : jsstring
}.

(** The [Response] a [fetch] resolves to, as far as the handlers look at it.
    [resp_json] and [resp_text] are what [await r.json()] and
    [await r.text()] come to on a body that has not been read yet; a body
    is read once (see [Body] below). *)
Record FetchResponse (num : Type) : Type := mkResponse {
  resp_status : Z;
  resp_statusText : jsstring;
  resp_content_type : option jsstring;
  resp_json : completion (jsval num);
  resp_text : completion jsstring
}.

(** [r.ok] *)
Definition resp_ok {num : Type} (r : FetchResponse num) : bool :=
  ((200 <=? resp_status r) && (resp_status r <=? 299))%Z.

(** The network as the handler meets it: each call resolves to a response or
    rejects. *)
Definition Network (num : Type) : Type :=
  FetchCall -> completion (FetchResponse num).

(** Stores that keep the list of the calls made, oldest first. *)
Class HasCalls (S : Type) : Type := {
  calls : S -> list FetchCall;
  record_call : FetchCall -> S -> S
}.

(** [await fetch(...)]: the call is made, then its outcome is known. *)
Definition fetch {S : Type} `{HasCalls S} {num : Type}
    (net : Network num) (c : FetchCall) : M S (FetchResponse num) :=
  fun s => (net c, record_call c s).

(** *** Reading a body *)

Section Bodies.
Context {E : Engine}.

(** A response with the state of its body: [bodyUsed] is set by the first
    read, whether or not the read succeeds, and a read of a used body
    rejects with a [TypeError].  (A response that has no body at all, as
    one with status 304, is not told apart here: the one place that reads
    twice is the route's handling of an error response, and for such a
    status its answer does not depend on what was read.) *)
Record Body : Type := mkBody {
  body_response : FetchResponse number;
  bodyUsed : bool
}.

(** The response as [fetch] hands it over. *)
Definition unread (r : FetchResponse number) : Body := mkBody r false.

(** [await r.json()]: the outcome, and the response afterwards. *)
Definition read_json (b : Body) : completion value * Body :=
  (if bodyUsed b then Throw (TypeError body_used_message)
   else resp_json (body_response b),
   mkBody (body_response b) true).

(** [await r.text()] *)
Definition read_text (b : Body) : completion jsstring * Body :=
  (if bodyUsed b then Throw (TypeError body_used_message)
   else resp_text (body_response b),
   mkBody (body_response b) true).

End Bodies.

(** Unfolds the monad's operations in the goal. *)
Ltac run := unfold bind, ret, await, throw, try_catch, try_finally, modify, fetch; simpl.

End Js.

(* ================================================================== *)
(** ** The proxy route: [src/app/api/generate-friendli/route.ts] *)
(* ================================================================== *)

Module Gateway.
Import Js.
Local Open Scope js_scope.

(** The three values the route reads from [process.env]. *)
Record Env : Type := mkEnv {
  FRIENDLI_API_TOKEN : option jsstring;
  FRIENDLI_API_ENDPOINT : option jsstring;
  FRIENDLI_ENDPOINT_ID : option jsstring
}.

(** The guard [if (!x) return ...] on a [string | undefined]: past it, [x]
    is a string that is not empty. *)
Definition configured (x : option jsstring) : option jsstring :=
  match x with
  | Some (c :: s) => Some (c :: s)
  | Some [] | None => None
  end.

(** The route's store is the list of the outbound calls it has made. *)
#[export] Instance gateway_calls : HasCalls (list FetchCall) := {
  calls := fun l => l;
  record_call := fun c l => l ++ [c]
}.

Section Route.
Context {E : Engine}.

(** The reply [NextResponse.json(body, { status })] builds: its body and
    its status. *)
Record NextResponse : Type := NextResponse_json {
  body : value;
  status : Z
}.

(** The statuses that go without a body. *)
Definition null_body_status (status : Z) : bool :=
  ((status =? 101) || (status =? 103) || (status =? 204) || (status =? 205)
   || (status =? 304))%Z.

(** The call [NextResponse.json(body, { status })]: a status outside
    200..599 is a [RangeError], a null-body status with a body (there is
    always one here) a [TypeError].  Writing the body as JSON is taken to
    succeed, as it does for the objects the route builds and for what
    [json()] parsed. *)
Definition json_response (body : value) (status : Z) : completion NextResponse :=
  if ((status <? 200) || (599 <? status))%Z
  then Throw (RangeError status_range_message)
  else if null_body_status status
  then Throw (TypeError (null_body_status_message status))
  else Normal (NextResponse_json body status).

(** The object literal [{ error: msg }]. *)
Definition error_body (msg : jsstring) : value := JObj [(str "error", JStr msg)].

Definition G (A : Type) : Type := M (list FetchCall) A.

(** Step 2 of the route: the object literal [payloadForFriendli].  Its
    property reads throw when the parsed body is [null]. *)
Definition payloadForFriendli (friendliModelId : jsstring) (clientPayload : value)
  : G value :=
  prompt <- await (get clientPayload (str "prompt")) ;;
  negative_prompt <- await (get clientPayload (str "negative_prompt")) ;;
  num_inference_steps <- await (get clientPayload (str "num_inference_steps")) ;;
  guidance_scale <- await (get clientPayload (str "guidance_scale")) ;;
  width <- await (get clientPayload (str "width")) ;;
  height <- await (get clientPayload (str "height")) ;;
  response_format <- await (get clientPayload (str "response_format")) ;;
  ret (JObj [ (str "model", JStr friendliModelId);
              (str "prompt", prompt);
              (str "negative_prompt", negative_prompt);
              (str "num_inference_steps", num_inference_steps);
              (str "guidance_scale", guidance_scale);
              (str "width", width);
              (str "height", height);
              (str "response_format", response_format) ]).

(** [errorJson.detail || errorJson.error?.message || errorJson.error
     || JSON.stringify(errorJson)] *)
Definition error_fields (errorJson : value) : G value :=
  detail <- await (get errorJson (str "detail")) ;;
  if truthy detail then ret detail else
  error1 <- await (get errorJson (str "error")) ;;
  let message := opt_get error1 (str "message") in
  if truthy message then ret message else
  error2 <- await (get errorJson (str "error")) ;;
  if truthy error2 then ret error2 else
  ret (JStr (JSON_stringify errorJson)).

(** The value [errorDetails] has after the nested [try]/[catch] of step 4.
    (Its initial value, the text with the status, is overwritten on every
    path.) *)
Definition errorDetails (friendliResponse : FetchResponse number) : G value :=
  let (parsed, after_json) := read_json (unread friendliResponse) in
  try_catch
    (errorJson <- await parsed ;;
     error_fields errorJson)
    (fun jsonError =>
       let (read, after_text) := read_text after_json in
       try_catch
         (text <- await read ;; ret (JStr text))
         (fun textError => ret (JStr (resp_statusText friendliResponse)))).

(** [contentType && contentType.includes("application/json")] *)
Definition is_json_content_type (contentType : option jsstring) : bool :=
  match contentType with
  | None => false
  | Some ct => string_truthy ct && includes ct (str "application/json")
  end.

(** Steps 4 and 5: what the route makes of the provider's response. *)
Definition handle_response (friendliResponse : FetchResponse number) : G NextResponse :=
  if negb (resp_ok friendliResponse) then
    details <- errorDetails friendliResponse ;;
    text <- await (ToString details) ;;
    await (json_response (error_body (str "Friendli API Error: " ++ text))
                         (resp_status friendliResponse))
  else
    let contentType := resp_content_type friendliResponse in
    if is_json_content_type contentType then
      responseData <- await (fst (read_json (unread friendliResponse))) ;;
      await (json_response responseData 200)
    else
      responseText <- await (fst (read_text (unread friendliResponse))) ;;
      await (json_response
               (error_body (str "Received unexpected response format from Friendli API."))
               500).

(** The call of step 3. *)
Definition friendli_call (token endpoint : jsstring) (payload : value) : FetchCall :=
  {| call_url := endpoint;
     call_method := str "POST";
     call_headers := [ (str "Content-Type", str "application/json");
                       (str "Authorization", str "Bearer " ++ token) ];
     call_body := JSON_stringify payload |}.

(** The [try] block, steps 1 to 5. *)
Definition forward (token endpoint friendliModelId : jsstring)
    (request_json : completion value) (net : Network number) : G NextResponse :=
  clientPayload <- await request_json ;;
  payload <- payloadForFriendli friendliModelId clientPayload ;;
  friendliResponse <- fetch net (friendli_call token endpoint payload) ;;
  handle_response friendliResponse.

(** The outer [catch]: [error.message || 'Internal Server Error ...']. *)
Definition internal_error (error : JsError) : G NextResponse :=
  await (json_response
           (error_body (if string_truthy (err_message error)
                        then err_message error
                        else str "Internal Server Error occurred in API route."))
           500).

(** [export async function POST(request)].  [request_json] is what
    [await request.json()] comes to, [net] the network the route's [fetch]
    meets. *)
Definition POST (env : Env) (request_json : completion value)
    (net : Network number) : G NextResponse :=
  match configured (FRIENDLI_API_TOKEN env) with
  | None =>
      await (json_response
               (error_body (str "Server configuration error: API token missing.")) 500)
  | Some token =>
  match configured (FRIENDLI_API_ENDPOINT env) with
  | None =>
      await (json_response
               (error_body (str "Server configuration error: API endpoint missing.")) 500)
  | Some endpoint =>
  match configured (FRIENDLI_ENDPOINT_ID env) with
  | None =>
      await (json_response
               (error_body (str "Server configuration error: Endpoint ID missing.")) 500)
  | Some friendliModelId =>
      try_catch (forward token endpoint friendliModelId request_json net)
                internal_error
  end end end.

End Route.
End Gateway.

(* ================================================================== *)
(** ** The page's generation handler: [ImageGeneratorPage] *)
(* ================================================================== *)

Module Composer.
Import Js.
Local Open Scope js_scope.

Section Page.
Context {E : Engine}.

(** An entry of [generationHistory]: [{ imageUrl, prompt, timestamp }]. *)
Record HistoryEntry : Type := mkEntry {
  imageUrl : value;
  entry_prompt : jsstring;
  timestamp : Z
}.

(** The component's state variables that the handler reads or writes
    ([null] is [None]).  [showHistory], [isCopied], [stylePreset] and
    [showSuggestions] are view state the handler never touches. *)
Record State : Type := mkState {
  prompt : jsstring;
  negativePrompt : jsstring;
  resolution : jsstring;
  steps : list number;
  guidanceScale : list number;
  generatedImageUrl : option value;
  isLoading : bool;
  error : option jsstring;
  lastGeneratedPrompt : option jsstring;
  currentBlobUrl : option jsstring;
  generationHistory : list HistoryEntry
}.

(** The browser as the handler acts on it: the component's state and the
    requests sent, oldest first. *)
Record World : Type := mkWorld {
  ui : State;
  requests : list FetchCall
}.

#[export] Instance composer_calls : HasCalls World := {
  calls := requests;
  record_call := fun c w => mkWorld (ui w) (requests w ++ [c])
}.

Definition C (A : Type) : Type := M World A.

Definition set_state (f : State -> State) : C unit :=
  modify (fun w => mkWorld (f (ui w)) (requests w)).

Definition setIsLoading (b : bool) : C unit :=
  set_state (fun s => mkState (prompt s) (negativePrompt s) (resolution s) (steps s)
    (guidanceScale s) (generatedImageUrl s) b (error s) (lastGeneratedPrompt s)
    (currentBlobUrl s) (generationHistory s)).

Definition setError (e : option jsstring) : C unit :=
  set_state (fun s => mkState (prompt s) (negativePrompt s) (resolution s) (steps s)
    (guidanceScale s) (generatedImageUrl s) (isLoading s) e (lastGeneratedPrompt s)
    (currentBlobUrl s) (generationHistory s)).

Definition setGeneratedImageUrl (u : option value) : C unit :=
  set_state (fun s => mkState (prompt s) (negativePrompt s) (resolution s) (steps s)
    (guidanceScale s) u (isLoading s) (error s) (lastGeneratedPrompt s)
    (currentBlobUrl s) (generationHistory s)).

Definition setLastGeneratedPrompt (p : option jsstring) : C unit :=
  set_state (fun s => mkState (prompt s) (negativePrompt s) (resolution s) (steps s)
    (guidanceScale s) (generatedImageUrl s) (isLoading s) (error s) p
    (currentBlobUrl s) (generationHistory s)).

Definition setCurrentBlobUrl (u : option jsstring) : C unit :=
  set_state (fun s => mkState (prompt s) (negativePrompt s) (resolution s) (steps s)
    (guidanceScale s) (generatedImageUrl s) (isLoading s) (error s)
    (lastGeneratedPrompt s) u (generationHistory s)).

(** [setGenerationHistory(previousHistory => ...)]: the updater form. *)
Definition setGenerationHistory (f : list HistoryEntry -> list HistoryEntry) : C unit :=
  set_state (fun s => mkState (prompt s) (negativePrompt s) (resolution s) (steps s)
    (guidanceScale s) (generatedImageUrl s) (isLoading s) (error s)
    (lastGeneratedPrompt s) (currentBlobUrl s) (f (generationHistory s))).

(** [xs[0]] on a [number[]] *)
Definition first_number (xs : list number) : value :=
  match xs with [] => JUndefined | n :: _ => JNum n end.

(** [const [width, height] = resolutionString.split('x').map(Number)] *)
Definition getResolutionDimensions (resolutionString : jsstring) : value * value :=
  let parts := map (fun p => JNum (Number_of_string p))
                   (split_on 120 resolutionString) in
  (nth 0 parts JUndefined, nth 1 parts JUndefined).

(** The object literal [payloadForApiRoute], from the values the handler's
    closure holds. *)
Definition payloadForApiRoute (s : State) : value :=
  let (width, height) := getResolutionDimensions (resolution s) in
  JObj [ (str "prompt", JStr (prompt s));
         (str "negative_prompt", js_or (JStr (negativePrompt s)) JUndefined);
         (str "num_inference_steps", first_number (steps s));
         (str "guidance_scale", first_number (guidanceScale s));
         (str "width", width);
         (str "height", height);
         (str "response_format", JStr (str "url")) ].

Definition internalApiEndpoint : jsstring := str "/api/generate-friendli".

(** The request to the internal route. *)
Definition api_route_call (s : State) : FetchCall :=
  {| call_url := internalApiEndpoint;
     call_method := str "POST";
     call_headers := [ (str "Content-Type", str "application/json") ];
     call_body := JSON_stringify (payloadForApiRoute s) |}.

(** [responseData?.data?.[0]?.url] *)
Definition imageUrlFromApi (responseData : value) : value :=
  opt_get (opt_get_index (opt_get responseData (str "data")) 0) (str "url").

(** The [try] block.  [s] holds the values the callback closed over,
    [now] is what [new Date()] reads. *)
Definition generate (s : State) (now : Z) (net : Network number) : C unit :=
  let generationTimestamp := now in
  internalApiResponse <- fetch net (api_route_call s) ;;
  responseData <- await (resp_json internalApiResponse) ;;
  if negb (resp_ok internalApiResponse) then
    error_field <- await (get responseData (str "error")) ;;
    message <- await (ToString
                 (js_or error_field
                    (JStr (str "API request failed: "
                           ++ resp_statusText internalApiResponse)))) ;;
    throw (new_Error message)
  else
    let url := imageUrlFromApi responseData in
    if negb (truthy url) then
      throw (new_Error (str "API response structure unexpected or missing image URL."))
    else
      setGeneratedImageUrl (Some url) ;;;
      setLastGeneratedPrompt (Some (prompt s)) ;;;
      setGenerationHistory
        (fun previousHistory =>
           mkEntry url (prompt s) generationTimestamp :: slice0 9 previousHistory).

(** The [catch] block. *)
Definition on_failure (errorObject : JsError) : C unit :=
  setError (Some (if string_truthy (err_message errorObject)
                  then err_message errorObject
                  else str "An unexpected error occurred during image generation.")) ;;;
  setGeneratedImageUrl None.

(** [if (currentBlobUrl)] on a [string | null] *)
Definition blob_url_set (u : option jsstring) : bool :=
  match u with Some s => string_truthy s | None => false end.

(** [handleGenerateClick], run on the state [s] its closure was created
    from.  (Revoking the old download URL acts on the browser's blob store,
    which is not part of [World].) *)
Definition handleGenerateClick (s : State) (now : Z) (net : Network number) : C unit :=
  if negb (string_truthy (trim (prompt s))) then
    setError (Some (str "Please enter a prompt to generate an image."))
  else
    setIsLoading true ;;;
    setError None ;;;
    setGeneratedImageUrl None ;;;
    setLastGeneratedPrompt None ;;;
    (if blob_url_set (currentBlobUrl s) then setCurrentBlobUrl None else ret tt) ;;;
    try_finally
      (try_catch (generate s now net) on_failure)
      (setIsLoading false).

End Page.
End Composer.

(* ================================================================== *)
(** ** What the statements below speak of *)
(* ================================================================== *)

Module Spec.
Import Js Gateway Composer.

(** *** The route *)




(** All three settings pass the route's guards. *)
Definition fully_configured (env : Env) : bool :=
  match configured (FRIENDLI_API_TOKEN env),
        configured (FRIENDLI_API_ENDPOINT env),
        configured (FRIENDLI_ENDPOINT_ID env) with
  | Some _, Some _, Some _ => true
  | _, _, _ => false
  end.



Section WithEngine.
Context {E : Engine}.

(** The fields the route copies from the client's body. *)
Definition copied_fields : list jsstring :=
  [ str "prompt"; str "negative_prompt"; str "num_inference_steps";
    str "guidance_scale"; str "width"; str "height"; str "response_format" ].

(** The outbound payload for a body that is an object (or any value but
    [null] and [undefined]): the model identifier, then the copied fields. *)
Definition outbound_payload (friendliModelId : jsstring) (clientPayload : value) : value :=
  JObj ((str "model", JStr friendliModelId)
        :: map (fun k => (k, opt_get clientPayload k)) copied_fields).

(** The one call a fully configured route makes for a parsed body, if it
    makes one. *)
Definition outbound_call (env : Env) (clientPayload : value) : option FetchCall :=
  match configured (FRIENDLI_API_TOKEN env),
        configured (FRIENDLI_API_ENDPOINT env),
        configured (FRIENDLI_ENDPOINT_ID env) with
  | Some token, Some endpoint, Some id =>
      if is_nullish clientPayload then None
      else Some (friendli_call token endpoint (outbound_payload id clientPayload))
  | _, _, _ => None
  end.

(** The first truthy value of a list of candidates. *)
Fixpoint first_truthy (candidates : list value) : option value :=
  match candidates with
  | [] => None
  | v :: rest => if truthy v then Some v else first_truthy rest
  end.


(** What the route picks from a provider's error body that parsed to a
    value other than [null]: the first truthy of [detail], the nested error
    message and the nested error, else the JSON text of the whole body. *)
Definition chosen_details (errorJson : value) : value :=
  match first_truthy [ opt_get errorJson (str "detail");
                       opt_get (opt_get errorJson (str "error")) (str "message");
                       opt_get errorJson (str "error") ] with
  | Some v => v
  | None => JStr (JSON_stringify errorJson)
  end.

(** What the route reports of a provider's error response: when the body
    parses to a value other than [null], what [chosen_details] picks from
    it; when it does not, the status text (the raw text is asked for, but
    of a body that has been read, so that it is never obtained). *)
Definition reported_details (r : FetchResponse number) : value :=
  match resp_json r with
  | Normal errorJson =>
      if is_nullish errorJson then JStr (resp_statusText r)
      else chosen_details errorJson
  | Throw _ => JStr (resp_statusText r)
  end.

(** Two client bodies that differ at most in a [model] field of their own. *)
Definition same_but_model (c1 c2 : value) : Prop :=
  forall k, k <> str "model" -> get c1 k = get c2 k.

(** *** The page *)

(** A prompt that is empty or made of white space only. *)
Definition blank (s : jsstring) : bool := forallb is_whitespace s.

(** The response body has no image URL at [data[0].url]: nothing is there,
    or what is there is empty. *)
Definition lacks_image_url (responseData : value) : Prop :=
  truthy (imageUrlFromApi responseData) = false.

(** The conditions under which the [try] block runs to its end. *)
Definition answered (s : State) (net : Network number) (url : value)
  : Prop :=
  exists r data,
    net (api_route_call s) = Normal r /\
    resp_json r = Normal data /\
    resp_ok r = true /\
    imageUrlFromApi data = url /\
    truthy url = true.

(** A click whose generation succeeds with the image [url]: the prompt is
    not blank, and the route answers in the 2xx range with a body that
    parses and has the truthy [url] at [data[0].url]. *)
Definition generation_succeeds (s : State) (net : Network number)
    (url : value) : Prop :=
  blank (prompt s) = false /\ answered s net url.

(** The world once the request has been sent. *)
Definition sent (s : State) (w : World) : World :=
  mkWorld (ui w) (requests w ++ [api_route_call s]).

(** The state after the three updates of a success. *)
Definition shown (s : State) (now : Z) (url : value) (st : State) : State :=
  mkState (prompt st) (negativePrompt st) (resolution st) (steps st)
    (guidanceScale st) (Some url) (isLoading st) (error st) (Some (prompt s))
    (currentBlobUrl st)
    (mkEntry url (prompt s) now :: slice0 9 (generationHistory st)).

(** The state the handler has reached when it enters the [try] block. *)
Definition started (s : State) (st : State) : State :=
  mkState (prompt st) (negativePrompt st) (resolution st) (steps st)
    (guidanceScale st) None true None None
    (if blob_url_set (currentBlobUrl s) then None else currentBlobUrl st)
    (generationHistory st).

(** The state the handler leaves after a failure with message [msg]. *)
Definition failed (s : State) (msg : jsstring) (st : State) : State :=
  mkState (prompt st) (negativePrompt st) (resolution st) (steps st)
    (guidanceScale st) None false (Some msg) None
    (if blob_url_set (currentBlobUrl s) then None else currentBlobUrl st)
    (generationHistory st).

(** The text the [catch] block displays for an exception. *)
Definition displayed_message (e : JsError) : jsstring :=
  if string_truthy (err_message e) then err_message e
  else str "An unexpected error occurred during image generation.".

(** The properties [JSON.stringify] keeps of an object. *)
Definition document_props (l : list (jsstring * value)) : list (jsstring * value) :=
  (fix walk (l : list (jsstring * value)) : list (jsstring * value) :=
     match l with
     | [] => []
     | (k, JUndefined) :: r => walk r
     | (k, x) :: r => (k, json_document x) :: walk r
     end) l.

End WithEngine.
End Spec.

(* ================================================================== *)
(** ** An engine and inputs to run the model on *)
(* ================================================================== *)

Module Sample.
Import Js.

(** An engine to evaluate the model with.  Its numbers are the integers,
    and [NaN] as [None]; it agrees with JavaScript on the inputs below. *)
Definition sample_number : Type := option Z.

Definition decimal (z : Z) : jsstring := str (NilZero.string_of_int (Z.to_int z)).

Definition sample_to_string (n : sample_number) : jsstring :=
  match n with Some z => decimal z | None => str "NaN" end.

Definition is_digit (c : N) : bool := ((48 <=? c) && (c <=? 57))%N.

(** [Number(s)] on a string of decimal digits (the empty string is [0]);
    any other string is [NaN] here. *)
Definition sample_of_string (s : jsstring) : sample_number :=
  if forallb is_digit s
  then Some (fold_left (fun acc c => 10 * acc + (Z.of_N c - 48))%Z s 0%Z)
  else None.

Definition hex_digit (n : N) : N := (if n <? 10 then 48 + n else 87 + n)%N.

Definition quote_unit (c : N) : jsstring :=
  if (c =? 34)%N then str "\" ++ [34%N]
  else if (c =? 92)%N then str "\\"
  else if (c =? 8)%N then str "\b"
  else if (c =? 9)%N then str "\t"
  else if (c =? 10)%N then str "\n"
  else if (c =? 12)%N then str "\f"
  else if (c =? 13)%N then str "\r"
  else if (c <? 32)%N then str "\u00" ++ [hex_digit (c / 16); hex_digit (c mod 16)]
  else [c].

Definition quote (s : jsstring) : jsstring :=
  [34%N] ++ flat_map quote_unit s ++ [34%N].

(** The compact text of a document, as [JSON.stringify] writes it for
    well-formed strings and keys that are not array indices. *)
Fixpoint sample_text (v : jsval sample_number) : jsstring :=
  match v with
  | JUndefined | JNull => str "null"
  | JBool true => str "true"
  | JBool false => str "false"
  | JNum (Some z) => decimal z
  | JNum None => str "null"
  | JStr s => quote s
  | JArr xs =>
      str "[" ++
      (fix items (l : list (jsval sample_number)) (first : bool) : jsstring :=
         match l with
         | [] => []
         | x :: r => (if first then [] else str ",") ++ sample_text x ++ items r false
         end) xs true
      ++ str "]"
  | JObj props =>
      str "{" ++
      (fix members (l : list (jsstring * jsval sample_number)) (first : bool) : jsstring :=
         match l with
         | [] => []
         | (k, x) :: r =>
             (if first then [] else str ",") ++ quote k ++ str ":" ++ sample_text x
             ++ members r false
         end) props true
      ++ str "}"
  end.

#[export] Instance sample_engine : Engine := {
  number := sample_number;
  number_truthy := fun n => match n with Some z => negb (z =? 0)%Z | None => false end;
  number_to_string := sample_to_string;
  Number_of_string := sample_of_string;
  JSON_text := sample_text;
  nullish_read_message := fun is_null k =>
    str "Cannot read properties of "
    ++ (if is_null then str "null" else str "undefined")
    ++ str " (reading '" ++ k ++ str "')";
  to_primitive_message := str "Cannot convert object to primitive value";
  body_used_message := str "Body is unusable: Body has already been read";
  status_range_message :=
    str "init[" ++ [34%N] ++ str "status" ++ [34%N]
    ++ str "] must be in the range of 200 to 599, inclusive.";
  null_body_status_message := fun status =>
    str "Response constructor: Invalid response status code "
    ++ sample_to_string (Some status)
}.

(** *** Inputs for the route *)

Definition sample_env : Gateway.Env :=
  Gateway.mkEnv (Some (str "secret-token"))
                (Some (str "https://api.friendli.ai/dedicated/v1/images/generations"))
                (Some (str "endpoint-1")).


(** The body the page sends for the prompt "a red cube". *)
Definition red_cube_fields : list (jsstring * value) :=
  [ (str "prompt", JStr (str "a red cube"));
    (str "num_inference_steps", JNum (Some 30%Z));
    (str "guidance_scale", JNum (Some 7%Z));
    (str "width", JNum (Some 1024%Z));
    (str "height", JNum (Some 1024%Z));
    (str "response_format", JStr (str "url")) ].

Definition red_cube : value := JObj red_cube_fields.

(** The same body with a [model] field slipped in by the caller. *)
Definition red_cube_with_model : value :=
  JObj ((str "model", JStr (str "someone-elses-endpoint")) :: red_cube_fields).




(** A provider answering 400 with [{ detail: { toString: 1 } }]: a detail
    that has no string form. *)
Definition unprintable_detail : FetchResponse number :=
  mkResponse 400 (str "Bad Request") (Some (str "application/json"))
    (Normal (JObj [ (str "detail", JObj [ (str "toString", JNum (Some 1%Z)) ]) ]))
    (Throw (TypeError (str "Body is unusable"))).

(** A provider answering 200 with [{ data: [{ url: "https://x/img.png" }] }]. *)
Definition image_body : value :=
  JObj [ (str "data", JArr [ JObj [ (str "url", JStr (str "https://x/img.png")) ] ]) ].

Definition image_ready : FetchResponse number :=
  mkResponse 200 (str "OK") (Some (str "application/json; charset=utf-8"))
    (Normal image_body) (Throw (TypeError (str "Body is unusable"))).


(** A provider answering 503 with an HTML page. *)
Definition service_down : FetchResponse number :=
  mkResponse 503 (str "Service Unavailable") (Some (str "text/html"))
    (Throw (mkError (str "SyntaxError") (str "Unexpected token < in JSON at position 0")))
    (Normal (str "<html>down</html>")).

(** A provider answering 304, without a body. *)
Definition not_modified : FetchResponse number :=
  mkResponse 304 (str "Not Modified") None
    (Throw (mkError (str "SyntaxError") (str "Unexpected end of JSON input")))
    (Normal []).


(** A network that is down. *)
Definition unreachable : Network number :=
  fun _ => Throw (TypeError (str "fetch failed")).

Definition always (r : FetchResponse number) : Network number := fun _ => Normal r.

(** The call the configured route makes for the red cube. *)
Definition red_cube_call : FetchCall :=
  Gateway.friendli_call (str "secret-token")
    (str "https://api.friendli.ai/dedicated/v1/images/generations")
    (Spec.outbound_payload (str "endpoint-1") red_cube).

(** *** Inputs for the page *)

(** The page with the prompt "a red cube" typed in and nothing generated
    yet. *)
Definition fresh_page : Composer.State :=
  Composer.mkState (str "a red cube") [] (str "1024x1024") [Some 30%Z] [Some 7%Z]
    None false None None None [].

(** The page with a prompt of a space, a tab and a line feed. *)
Definition blank_page : Composer.State :=
  Composer.mkState [32%N; 9%N; 10%N] [] (str "1024x1024") [Some 30%Z] [Some 7%Z]
    None false None None None [].

Definition old_entry (t : Z) : Composer.HistoryEntry :=
  Composer.mkEntry (JStr (str "https://x/old.png")) (str "an old prompt") t.

(** Ten entries, newest first. *)
Definition full_history : list Composer.HistoryEntry :=
  map old_entry [10; 9; 8; 7; 6; 5; 4; 3; 2; 1]%Z.

(** The page with a full history, and a negative prompt. *)
Definition busy_page : Composer.State :=
  Composer.mkState (str "a red cube") (str "blurry") (str "512x512") [Some 30%Z]
    [Some 7%Z] None false None None None full_history.

(** The route answering 200 with [{ data: [] }]. *)
Definition no_image : FetchResponse number :=
  mkResponse 200 (str "OK") (Some (str "application/json"))
    (Normal (JObj [ (str "data", JArr []) ]))
    (Throw (TypeError (str "Body is unusable"))).


End Sample.

(* ================================================================== *)
(** ** The page's other handlers *)
(* ================================================================== *)

Module Page.
Import Js Composer.
Local Open Scope js_scope.

(** *** Configuration *)

(** The [value]s of [RESOLUTIONS]. *)
Definition RESOLUTIONS : list jsstring :=
  [ str "512x512"; str "768x768"; str "1024x1024" ].

Definition DEFAULT_RESOLUTION : jsstring := str "1024x1024".

Definition EXAMPLE_PROMPTS : list jsstring :=
  [ str "Astronaut riding a horse on the moon, detailed, high resolution";
    str "A hyperrealistic oil painting of a mechanical owl perched on a stack of ancient books, "
    ++ str "steampunk style";
    str "Surreal landscape with floating islands and waterfalls flowing upwards, "
    ++ str "vibrant colors, digital art";
    str "Macro photograph of a dewdrop on a spider web, "
    ++ str "reflecting a tiny forest scene";
    str "A cozy cabin in a snowy forest at night, "
    ++ str "warm light glowing from the windows, aurora borealis in the sky" ].

(** *** String operations of the handlers *)

(** How a template literal prints a number that is an integer. *)
Definition integer_to_string (z : Z) : jsstring :=
  str (NilZero.string_of_int (Z.to_int z)).

(** [s.replace(/,\s*$/, '')]: the leftmost comma that only white space
    follows is removed with what follows it. *)
Fixpoint strip_trailing_comma (s : jsstring) : jsstring :=
  match s with
  | [] => []
  | c :: r =>
      if (c =? 44)%N && forallb is_whitespace r then []
      else c :: strip_trailing_comma r
  end.

(** The code units [/[a-z0-9]/i] matches: without the [u] flag only the
    ASCII letters and digits. *)
Definition is_alnum (c : N) : bool :=
  ((48 <=? c) && (c <=? 57) || (65 <=? c) && (c <=? 90)
   || (97 <=? c) && (c <=? 122))%N.

(** [s.replace(/[^a-z0-9]/gi, '_')] *)
Definition replace_non_alnum (s : jsstring) : jsstring :=
  map (fun c => if is_alnum c then c else 95%N) s.

(** [s.toLowerCase()] on a string of ASCII code units. *)
Definition toLowerCase_ascii (s : jsstring) : jsstring :=
  map (fun c => if ((65 <=? c) && (c <=? 90))%N then (c + 32)%N else c) s.

(** [s.substring(0, n)] *)
Definition substring0 (n : nat) (s : jsstring) : jsstring := firstn n s.

(** The [switch] of [applyStylePreset]: the prompt suffix and the negative
    prefix of a preset; both empty for ['none'] and for any other name. *)
Definition style_keywords (preset : jsstring) : jsstring * jsstring :=
  if jsstring_eqb preset (str "photo") then
    (str ", high resolution photograph, photorealistic, detailed, "
     ++ str "sharp focus, 8k",
     str "drawing, painting, illustration, sketch, cartoon, anime, manga, "
     ++ str "render, CGI, 3d, watermark, text, signature")
  else
  if jsstring_eqb preset (str "anime") then
    (str ", anime style, key visual, detailed anime illustration, "
     ++ str "masterpiece",
     str "photorealistic, photograph, real life, 3d render, text, signature")
  else
  if jsstring_eqb preset (str "painting") then
    (str ", detailed oil painting, artistic brush strokes, "
     ++ str "impressionist style, canvas texture",
     str "photograph, photo, realistic, 3d render, CGI, text, signature, "
     ++ str "watermark")
  else
  if jsstring_eqb preset (str "pixel") then
    (str ", pixel art style, 16-bit videogame sprite, detailed pixel art, "
     ++ str "limited palette",
     str "high resolution, detailed photograph, realistic, smooth, photo, "
     ++ str "3d render")
  else
  if jsstring_eqb preset (str "scifi") then
    (str ", science fiction art, futuristic technology, cyberpunk city, "
     ++ str "highly detailed, cinematic lighting",
     str "fantasy, historical, medieval, drawing, sketch, simple")
  else
  if jsstring_eqb preset (str "cartoon") then
    (str ", cartoon style, vibrant colors, bold outlines, "
     ++ str "simplified shapes, playful illustration",
     str "photorealistic, realistic, photograph, detailed texture, "
     ++ str "complex background, 3d render")
  else
  if jsstring_eqb preset (str "watercolor") then
    (str ", watercolor painting, soft edges, blended colors, "
     ++ str "wet-on-wet technique, paper texture",
     str "photorealistic, photograph, sharp focus, 3d render, CGI, "
     ++ str "solid outlines")
  else
  if jsstring_eqb preset (str "concept") then
    (str ", concept art, rough sketches, character design sheet, "
     ++ str "environmental design, atmospheric lighting, digital painting",
     str "photorealistic, photograph, finished artwork, 3d model render")
  else
  if jsstring_eqb preset (str "comic") then
    (str ", comic book style, graphic novel art, bold ink outlines, "
     ++ str "dynamic composition, halftone dots, panel layout",
     str "photorealistic, photograph, painting, 3d render, realistic texture")
  else
  ([], []).

(** The updater [applyStylePreset] passes to [setPrompt]. *)
Definition styled_prompt (stylePromptSuffix currentPrompt : jsstring) : jsstring :=
  let cleanedPrompt := strip_trailing_comma (trim currentPrompt) in
  if includes cleanedPrompt stylePromptSuffix then cleanedPrompt
  else cleanedPrompt ++ stylePromptSuffix.

(** The updater [applyStylePreset] passes to [setNegativePrompt]. *)
Definition styled_negative (styleNegativePrefix currentNegative : jsstring) : jsstring :=
  if jsstring_eqb (trim currentNegative) [] then styleNegativePrefix
  else if starts_with styleNegativePrefix currentNegative
          && string_truthy styleNegativePrefix
  then currentNegative
  else styleNegativePrefix
       ++ (if string_truthy styleNegativePrefix && string_truthy currentNegative
           then str ", " else [])
       ++ currentNegative.

(** [lastGeneratedPrompt?.substring(0, 50).replace(/[^a-z0-9]/gi, '_')
     .toLowerCase() || 'generated'] *)
Definition safePromptPart (lastGeneratedPrompt : option jsstring) : jsstring :=
  match lastGeneratedPrompt with
  | None => str "generated"
  | Some p =>
      let part := toLowerCase_ascii (replace_non_alnum (substring0 50 p)) in
      if string_truthy part then part else str "generated"
  end.

(** [imageBlob.type.split('/')[1] || 'png'] *)
Definition fileExtension (blob_type : jsstring) : jsstring :=
  match nth_error (split_on 47 blob_type) 1 with
  | Some (c :: r) => c :: r
  | Some [] | None => str "png"
  end.

(** The name given to the download link; [now] is what [Date.now()]
    reads. *)
Definition download_name (lastGeneratedPrompt : option jsstring) (now : Z)
    (blob_type : jsstring) : jsstring :=
  safePromptPart lastGeneratedPrompt ++ str "_" ++ integer_to_string now
  ++ str "." ++ fileExtension blob_type.

Section Handlers.
Context {E : Engine}.

(** *** State updates, as functions *)

Definition with_prompt (p : jsstring) (s : State) : State :=
  mkState p (negativePrompt s) (resolution s) (steps s) (guidanceScale s)
    (generatedImageUrl s) (isLoading s) (error s) (lastGeneratedPrompt s)
    (currentBlobUrl s) (generationHistory s).

Definition with_negativePrompt (n : jsstring) (s : State) : State :=
  mkState (prompt s) n (resolution s) (steps s) (guidanceScale s)
    (generatedImageUrl s) (isLoading s) (error s) (lastGeneratedPrompt s)
    (currentBlobUrl s) (generationHistory s).

Definition with_generatedImageUrl (u : option value) (s : State) : State :=
  mkState (prompt s) (negativePrompt s) (resolution s) (steps s) (guidanceScale s)
    u (isLoading s) (error s) (lastGeneratedPrompt s)
    (currentBlobUrl s) (generationHistory s).

Definition with_isLoading (b : bool) (s : State) : State :=
  mkState (prompt s) (negativePrompt s) (resolution s) (steps s) (guidanceScale s)
    (generatedImageUrl s) b (error s) (lastGeneratedPrompt s)
    (currentBlobUrl s) (generationHistory s).

Definition with_error (e : option jsstring) (s : State) : State :=
  mkState (prompt s) (negativePrompt s) (resolution s) (steps s) (guidanceScale s)
    (generatedImageUrl s) (isLoading s) e (lastGeneratedPrompt s)
    (currentBlobUrl s) (generationHistory s).

Definition with_lastGeneratedPrompt (p : option jsstring) (s : State) : State :=
  mkState (prompt s) (negativePrompt s) (resolution s) (steps s) (guidanceScale s)
    (generatedImageUrl s) (isLoading s) (error s) p
    (currentBlobUrl s) (generationHistory s).

Definition with_currentBlobUrl (u : option jsstring) (s : State) : State :=
  mkState (prompt s) (negativePrompt s) (resolution s) (steps s) (guidanceScale s)
    (generatedImageUrl s) (isLoading s) (error s) (lastGeneratedPrompt s)
    u (generationHistory s).

(** The view state the generation handler leaves alone. *)
Record View : Type := mkView {
  showHistory : bool;
  isCopied : bool;
  stylePreset : jsstring;
  showSuggestions : bool
}.

(** All the state variables of the component. *)
Record Screen : Type := mkScreen {
  state : State;
  view : View
}.

(** *** The handlers that only update state *)

(** [applyExamplePrompt] *)
Definition applyExamplePrompt (examplePromptText : jsstring) (sc : Screen) : Screen :=
  mkScreen
    (with_error None (with_prompt examplePromptText (state sc)))
    (mkView (showHistory (view sc)) (isCopied (view sc)) (stylePreset (view sc)) false).

(** [applyStylePreset] *)
Definition applyStylePreset (preset : jsstring) (sc : Screen) : Screen :=
  let (stylePromptSuffix, styleNegativePrefix) := style_keywords preset in
  let s := state sc in
  let s' :=
    if negb (jsstring_eqb preset (str "none")) then
      with_negativePrompt (styled_negative styleNegativePrefix (negativePrompt s))
        (with_prompt (styled_prompt stylePromptSuffix (prompt s)) s)
    else s in
  mkScreen
    (with_error None s')
    (mkView (showHistory (view sc)) (isCopied (view sc)) preset
            (showSuggestions (view sc))).

(** [loadFromHistory] *)
Definition loadFromHistory (historyItem : HistoryEntry) (sc : Screen) : Screen :=
  mkScreen
    (with_error None
       (with_lastGeneratedPrompt (Some (entry_prompt historyItem))
          (with_generatedImageUrl (Some (imageUrl historyItem))
             (with_prompt (entry_prompt historyItem) (state sc)))))
    (mkView false (isCopied (view sc)) (stylePreset (view sc))
            (showSuggestions (view sc))).

(** *** When the buttons are disabled *)

(** [!x] on a [string | null] *)
Definition absent_string (x : option jsstring) : bool :=
  match x with Some s => negb (string_truthy s) | None => true end.

(** [!generatedImageUrl] *)
Definition no_image (s : State) : bool :=
  match generatedImageUrl s with Some u => negb (truthy u) | None => true end.

(** Generate: [disabled={isLoading || !prompt.trim()}] *)
Definition generate_disabled (s : State) : bool :=
  isLoading s || negb (string_truthy (trim (prompt s))).

(** Copy: [disabled={!lastGeneratedPrompt}] *)
Definition copy_disabled (s : State) : bool := absent_string (lastGeneratedPrompt s).

(** Download: [disabled={!generatedImageUrl || isLoading}] *)
Definition download_disabled (s : State) : bool := no_image s || isLoading s.

(** The condition [generatedImageUrl && !isLoading] that guards the footer
    with Copy and Download in the JSX.  (It is the guard alone: what React
    makes of the elements behind it is not part of the model.) *)
Definition footer_guard (s : State) : bool := negb (no_image s) && negb (isLoading s).

(** *** Copying the prompt *)

(** The callback a timer runs: [() => setIsCopied(false)]. *)
Inductive TimerTask : Type := ResetCopied.

(** The page with the clipboard and the timers: the texts written to the
    clipboard, oldest first, and the timers set, with their delays. *)
Record Desk : Type := mkDesk {
  screen : Screen;
  clipboard : list jsstring;
  timers : list (TimerTask * Z)
}.

Definition on_screen (f : Screen -> Screen) : M Desk unit :=
  modify (fun d => mkDesk (f (screen d)) (clipboard d) (timers d)).

Definition setIsCopied (b : bool) (sc : Screen) : Screen :=
  mkScreen (state sc)
    (mkView (showHistory (view sc)) b (stylePreset (view sc))
            (showSuggestions (view sc))).

(** [setTimeout(task, delay)] *)
Definition setTimeout (task : TimerTask) (delay : Z) : M Desk unit :=
  modify (fun d => mkDesk (screen d) (clipboard d) (timers d ++ [(task, delay)])).

(** A timer firing. *)
Definition run_timer (task : TimerTask) : M Desk unit :=
  match task with ResetCopied => on_screen (setIsCopied false) end.

(** [navigator.clipboard.writeText(text)]: [writeText] is what the browser
    makes of the call; without a clipboard ([None], as on a page that is not
    served securely) reading [writeText] of [undefined] throws. *)
Definition clipboard_writeText
    (api : option (jsstring -> completion unit)) (text : jsstring) : M Desk unit :=
  match api with
  | None => throw (TypeError (nullish_read_message false (str "writeText")))
  | Some writeText =>
      fun d =>
        match writeText text with
        | Normal _ => (Normal tt, mkDesk (screen d) (clipboard d ++ [text]) (timers d))
        | Throw e => (Throw e, d)
        end
  end.

(** [handleCopyPrompt], run on the state [s] of its closure.  The rejection
    of the promise goes to [.catch]; a missing clipboard throws before there
    is a promise. *)
Definition handleCopyPrompt (s : State)
    (api : option (jsstring -> completion unit)) : M Desk unit :=
  match lastGeneratedPrompt s with
  | None => ret tt
  | Some text =>
      if negb (string_truthy text) then ret tt
      else
        match api with
        | None => clipboard_writeText api text
        | Some _ =>
            try_catch
              (clipboard_writeText api text ;;;
               on_screen (setIsCopied true) ;;;
               setTimeout ResetCopied 2000)
              (fun clipboardError =>
                 on_screen (fun sc =>
                   mkScreen (with_error (Some (str "Could not copy prompt.")) (state sc))
                            (view sc)))
        end
  end.

(** *** Downloading the image *)

(** The [Response] of the image fetch; [img_blob] is what
    [await r.blob()] comes to, a blob being known by its [type]. *)
Record ImageResponse : Type := mkImage {
  img_status : Z;
  img_statusText : jsstring;
  img_blob : completion jsstring
}.

Definition img_ok (r : ImageResponse) : bool :=
  ((200 <=? img_status r) && (img_status r <=? 299))%Z.

(** What fetching a URL comes to. *)
Definition ImageNetwork : Type := jsstring -> completion ImageResponse.

(** The browser as the download handler acts on it: the component's state,
    the URLs fetched, the blob URLs revoked, and the links clicked, each with
    its [href] and its [download] name. *)
Record Browser : Type := mkBrowser {
  page : State;
  fetched : list jsstring;
  revoked : list jsstring;
  saved : list (jsstring * jsstring)
}.

Definition D (A : Type) : Type := M Browser A.

Definition on_page (f : State -> State) : D unit :=
  modify (fun b => mkBrowser (f (page b)) (fetched b) (revoked b) (saved b)).

(** [await fetch(url)] *)
Definition fetch_image (net : ImageNetwork) (url : jsstring) : D ImageResponse :=
  fun b => (net url, mkBrowser (page b) (fetched b ++ [url]) (revoked b) (saved b)).

(** [URL.revokeObjectURL(url)] *)
Definition revokeObjectURL (url : jsstring) : D unit :=
  modify (fun b => mkBrowser (page b) (fetched b) (revoked b ++ [url]) (saved b)).

(** The link is created, named, added to the document, clicked and
    removed. *)
Definition click_link (href name : jsstring) : D unit :=
  modify (fun b => mkBrowser (page b) (fetched b) (revoked b) (saved b ++ [(href, name)])).

(** The [try] block of [handleDownloadImage]. *)
Definition download (s : State) (image : value) (now : Z) (net : ImageNetwork)
    (blobUrlForDownload : jsstring) : D unit :=
  url <- await (ToString image) ;;
  imageFetchResponse <- fetch_image net url ;;
  if negb (img_ok imageFetchResponse) then
    throw (new_Error (str "Failed to fetch image ("
                      ++ integer_to_string (img_status imageFetchResponse)
                      ++ str " " ++ img_statusText imageFetchResponse ++ str ")"))
  else
    blob_type <- await (img_blob imageFetchResponse) ;;
    on_page (with_currentBlobUrl (Some blobUrlForDownload)) ;;;
    click_link blobUrlForDownload
               (download_name (lastGeneratedPrompt s) now blob_type).

(** [handleDownloadImage], run on the state [s] of its closure.
    [blobUrlForDownload] is what [URL.createObjectURL] returns. *)
Definition handleDownloadImage (s : State) (now : Z) (net : ImageNetwork)
    (blobUrlForDownload : jsstring) : D unit :=
  match generatedImageUrl s with
  | None => ret tt
  | Some image =>
      if negb (truthy image) then ret tt
      else
        (match currentBlobUrl s with
         | Some old =>
             if string_truthy old then
               revokeObjectURL old ;;; on_page (with_currentBlobUrl None)
             else ret tt
         | None => ret tt
         end) ;;;
        on_page (with_isLoading true) ;;;
        on_page (with_error None) ;;;
        try_finally
          (try_catch (download s image now net blobUrlForDownload)
             (fun downloadError =>
                on_page (with_error
                           (Some (str "Download failed: "
                                  ++ err_message downloadError)))))
          (on_page (with_isLoading false))
  end.

End Handlers.
End Page.

(* ================================================================== *)
(** ** What the further statements speak of *)
(* ================================================================== *)

Module PageSpec.
Import Js Gateway Composer Spec Page.

Section WithEngine.
Context {E : Engine}.

(** The properties of the outbound document that come from the client: a
    copied field the client's body does not have is left out. *)
Definition kept_fields (clientPayload : value) : list (jsstring * value) :=
  flat_map (fun k => if is_undefined (opt_get clientPayload k) then []
                     else [(k, json_document (opt_get clientPayload k))])
           copied_fields.

(** A body that is a value without properties of its own: a boolean, a
    number, a string or an array. *)
Definition is_primitive_or_array (v : value) : bool :=
  match v with
  | JBool _ | JNum _ | JStr _ | JArr _ => true
  | _ => false
  end.

(** An entry as the generation handler makes them: an image that is there
    and a prompt that is not blank. *)
Definition good_entry (h : HistoryEntry) : Prop :=
  truthy (imageUrl h) = true /\ blank (entry_prompt h) = false.

(** The state as the handlers keep it: at most ten entries, all good, and a
    displayed image that is there when it is not [null]. *)
Definition well_formed (s : State) : Prop :=
  Forall good_entry (generationHistory s) /\
  List.length (generationHistory s) <= 10 /\
  (forall u, generatedImageUrl s = Some u -> truthy u = true).

(** The handlers' inputs: what the user typed and selected. *)
Definition same_inputs (s s' : State) : Prop :=
  prompt s' = prompt s /\
  negativePrompt s' = negativePrompt s /\
  resolution s' = resolution s /\
  steps s' = steps s /\
  guidanceScale s' = guidanceScale s.

(** The result on display: the image, its prompt and the history. *)
Definition same_result (s s' : State) : Prop :=
  generatedImageUrl s' = generatedImageUrl s /\
  lastGeneratedPrompt s' = lastGeneratedPrompt s /\
  generationHistory s' = generationHistory s.

(** The state of the first render: the [useState] defaults.  The two
    numbers are [DEFAULT_STEPS] and [DEFAULT_GUIDANCE_SCALE]. *)
Definition initial_state (default_steps default_guidance : number) : State :=
  mkState [] [] DEFAULT_RESOLUTION [default_steps] [default_guidance]
    None false None None None [].

(** One event on the page, handlers running one at a time: a click on
    Generate, on Download, on Copy, on a history entry that is shown, on a
    style preset or on an example prompt; an edit of one of the inputs; the
    dismissal of the error.  The closure [s] a handler runs on may be any
    state. *)
Inductive event : State -> State -> Prop :=
| ev_generate (s : State) (now : Z) (net : Network number) (w : World) :
    event (ui w) (ui (snd (handleGenerateClick s now net w)))
| ev_download (s : State) (now : Z) (net : ImageNetwork) (blobUrl : jsstring)
    (b : Browser) :
    event (page b) (page (snd (handleDownloadImage s now net blobUrl b)))
| ev_copy (s : State) (api : option (jsstring -> completion unit)) (d : Desk) :
    event (state (screen d)) (state (screen (snd (handleCopyPrompt s api d))))
| ev_load (h : HistoryEntry) (sc : Screen) :
    In h (generationHistory (state sc)) ->
    event (state sc) (state (loadFromHistory h sc))
| ev_style (preset : jsstring) (sc : Screen) :
    event (state sc) (state (applyStylePreset preset sc))
| ev_example (text : jsstring) (sc : Screen) :
    event (state sc) (state (applyExamplePrompt text sc))
| ev_edit (st : State) (p n r : jsstring) (ss gs : list number) :
    event st (mkState p n r ss gs (generatedImageUrl st) (isLoading st) (error st)
                (lastGeneratedPrompt st) (currentBlobUrl st) (generationHistory st))
| ev_dismiss (st : State) :
    event st (with_error None st).

(** The states the page can be in after any number of events. *)
Inductive reachable (default_steps default_guidance : number) : State -> Prop :=
| reach_initial : reachable default_steps default_guidance
                    (initial_state default_steps default_guidance)
| reach_event (st st' : State) :
    reachable default_steps default_guidance st ->
    event st st' ->
    reachable default_steps default_guidance st'.

(** The blob URL the download handler revokes before it starts, if the
    closure holds one. *)
Definition old_blob (s : State) : list jsstring :=
  match currentBlobUrl s with
  | Some old => if string_truthy old then [old] else []
  | None => []
  end.

(** The browser after a download that failed with [message], having
    fetched [urls]. *)
Definition download_failed (s : State) (message : jsstring) (urls : list jsstring)
    (b : Browser) : Browser :=
  mkBrowser
    (with_isLoading false
       (with_error (Some (str "Download failed: " ++ message))
          (with_currentBlobUrl
             (if blob_url_set (currentBlobUrl s) then None
              else currentBlobUrl (page b))
             (page b))))
    (fetched b ++ urls)
    (revoked b ++ old_blob s)
    (saved b).

(** The browser after a download that went through. *)
Definition download_done (s : State) (now : Z) (url blob_type blobUrl : jsstring)
    (b : Browser) : Browser :=
  mkBrowser
    (with_isLoading false
       (with_error None (with_currentBlobUrl (Some blobUrl) (page b))))
    (fetched b ++ [url])
    (revoked b ++ old_blob s)
    (saved b ++ [(blobUrl, download_name (lastGeneratedPrompt s) now blob_type)]).

(** The conditions under which a download goes through: the image has a
    string form, fetching it answers in the 2xx range, and the body can be
    read as a blob. *)
Definition image_arrives (s : State) (net : ImageNetwork)
    (url blob_type : jsstring) : Prop :=
  exists image r,
    generatedImageUrl s = Some image /\
    truthy image = true /\
    ToString image = Normal url /\
    net url = Normal r /\
    img_ok r = true /\
    img_blob r = Normal blob_type.

End WithEngine.

(** A code unit of the set [[a-z0-9_]]. *)
Definition is_safe_unit (c : N) : bool :=
  ((48 <=? c) && (c <=? 57) || (97 <=? c) && (c <=? 122) || (c =? 95))%N.

(** A style suffix as the table has them: empty, or from a code unit that
    is not white space to one that is neither white space nor a comma. *)
Definition suffix_shaped (suffix : jsstring) : bool :=
  match suffix with
  | [] => true
  | c :: _ =>
      negb (is_whitespace c)
      && negb (is_whitespace (last suffix 0%N))
      && negb (last suffix 0%N =? 44)%N
  end.

(** A negative prefix as the table has them: empty, or not blank. *)
Definition prefix_shaped (prefix : jsstring) : bool :=
  negb (string_truthy prefix) || negb (blank prefix).

End PageSpec.

(* ================================================================== *)
(** ** Further inputs to run the model on *)
(* ================================================================== *)

Module MoreSamples.
Import Js Gateway Composer Spec Sample Page PageSpec.


(** The route's reply to a rate-limited call, as the page receives it. *)
Definition route_refusal : FetchResponse number :=
  mkResponse 429 (str "Too Many Requests") (Some (str "application/json"))
    (Normal (error_body (str "Friendli API Error: rate limited")))
    (Throw (TypeError (str "Body is unusable"))).

(** The route's reply that is not JSON at all (a gateway's HTML page). *)
Definition not_json : FetchResponse number :=
  mkResponse 502 (str "Bad Gateway") (Some (str "text/html"))
    (Throw (mkError (str "SyntaxError") (str "Unexpected token <")))
    (Normal (str "<html></html>")).

(** The page once the red cube has been generated, at time 11. *)
Definition shown_page : State :=
  mkState (str "a red cube") [] (str "1024x1024") [Some 30%Z] [Some 7%Z]
    (Some (JStr (str "https://x/img.png"))) false None
    (Some (str "a red cube")) None
    [ mkEntry (JStr (str "https://x/img.png")) (str "a red cube") 11 ].

(** The same page holding the blob URL of an earlier download, and a prompt
    of record with capitals and punctuation. *)
Definition downloaded_page : State :=
  mkState (str "a red cube") [] (str "1024x1024") [Some 30%Z] [Some 7%Z]
    (Some (JStr (str "https://x/img.png"))) false None
    (Some (str "A Red Cube, 8k!")) (Some (str "blob:old"))
    [ mkEntry (JStr (str "https://x/img.png")) (str "A Red Cube, 8k!") 11 ].

Definition plain_view : View := mkView false false (str "none") false.

(** A screen whose prompt ends in a comma and spaces. *)
Definition cat_screen : Screen :=
  mkScreen
    (mkState (str "  a cat,  ") (str "blurry") (str "1024x1024") [Some 30%Z]
       [Some 7%Z] None false (Some (str "old error")) None None [])
    plain_view.

Definition empty_browser (s : State) : Browser := mkBrowser s [] [] [].

Definition empty_desk (s : State) : Desk := mkDesk (mkScreen s plain_view) [] [].

(** The image host serving a PNG. *)
Definition image_served : ImageNetwork :=
  fun _ => Normal (mkImage 200 (str "OK") (Normal (str "image/png"))).

(** The image host after the URL has expired. *)
Definition image_gone : ImageNetwork :=
  fun _ => Normal (mkImage 404 (str "Not Found")
                     (Throw (TypeError (str "Body is unusable")))).

(** A clipboard that takes every text, and one that refuses. *)
Definition clipboard_accepts : jsstring -> completion unit := fun _ => Normal tt.

Definition clipboard_refuses : jsstring -> completion unit :=
  fun _ => Throw (mkError (str "NotAllowedError") (str "Write permission denied.")).

End MoreSamples.

Unset Implicit Arguments.

(* ================================================================== *)
(** ** Facts about strings and responses *)
(* ================================================================== *)

Module JsFacts.
Import Js.

(** [r.ok] is the status being in [200, 300). *)
Lemma resp_ok_range {num : Type} (r : FetchResponse num) :
  resp_ok r = true <-> (200 <= resp_status r < 300)%Z.
Proof.
  unfold resp_ok. rewrite andb_true_iff, !Z.leb_le. lia.
Qed.

Lemma jsstring_eqb_neq (k k' : jsstring) : k <> k' -> jsstring_eqb k k' = false.
Proof.
  unfold jsstring_eqb. destruct (list_eq_dec N.eq_dec k k'); congruence.
Qed.

End JsFacts.

(* ================================================================== *)
(** ** Properties of the route *)
(* ================================================================== *)

Module GatewayProofs.
Import Js JsFacts Gateway Spec.
Local Open Scope js_scope.

Section Route.
Context {E : Engine}.

(** Reading a property of a value that is neither [null] nor [undefined]
    does not throw. *)
Lemma get_opt_get (v : value) (k : jsstring) :
  is_nullish v = false -> get v k = Normal (opt_get v k).
Proof.
  destruct v; simpl; intro H; try discriminate; reflexivity.
Qed.

Lemma get_nullish (v : value) (k : jsstring) :
  is_nullish v = true -> exists e, get v k = Throw e.
Proof.
  destruct v; simpl; intro H; try discriminate; eexists; reflexivity.
Qed.

Lemma payload_of_object (id : jsstring) (client : value) (log : list FetchCall) :
  is_nullish client = false ->
  payloadForFriendli id client log = (Normal (outbound_payload id client), log).
Proof.
  intro H. unfold payloadForFriendli. run.
  rewrite !(get_opt_get _ _ H). reflexivity.
Qed.

Lemma payload_of_nullish (id : jsstring) (client : value) (log : list FetchCall) :
  is_nullish client = true ->
  exists e, payloadForFriendli id client log = (Throw e, log).
Proof.
  intro H. destruct (get_nullish _ (str "prompt") H) as [e He].
  exists e. unfold payloadForFriendli. run. rewrite He. reflexivity.
Qed.

(** The nested [try]/[catch] of step 4 never throws, and leaves in
    [errorDetails] the value [reported_details] describes. *)
Lemma errorDetails_reported (r : FetchResponse number) (log : list FetchCall) :
  errorDetails r log = (Normal (reported_details r), log).
Proof.
  unfold errorDetails, reported_details, chosen_details, error_fields.
  cbn [read_json read_text unread bodyUsed body_response]. run.
  destruct (resp_json r) as [errorJson|e]; [|reflexivity].
  destruct (is_nullish errorJson) eqn:Hn.
  - destruct (get_nullish _ (str "detail") Hn) as [e He]. rewrite He.
    reflexivity.
  - rewrite !(get_opt_get _ _ Hn).
    destruct (truthy (opt_get errorJson (str "detail"))); [reflexivity|].
    destruct (truthy (opt_get (opt_get errorJson (str "error")) (str "message")));
      [reflexivity|].
    destruct (truthy (opt_get errorJson (str "error"))); reflexivity.
Qed.




(** A fully configured route, given a body that parsed to an object, makes
    its one call and hands the outcome to [handle_response]. *)
Lemma POST_forwards (env : Env) (client : value) (net : Network number)
    (log : list FetchCall) (c : FetchCall) :
  outbound_call env client = Some c ->
  POST env (Normal client) net log =
    match net c with
    | Normal r => try_catch (handle_response r) internal_error (log ++ [c])
    | Throw e => internal_error e (log ++ [c])
    end.
Proof.
  unfold outbound_call, POST.
  destruct (configured (FRIENDLI_API_TOKEN env)) as [token|]; [|discriminate].
  destruct (configured (FRIENDLI_API_ENDPOINT env)) as [endpoint|]; [|discriminate].
  destruct (configured (FRIENDLI_ENDPOINT_ID env)) as [id|]; [|discriminate].
  destruct (is_nullish client) eqn:Hn; [discriminate|].
  intro H. inversion H; subst c; clear H.
  unfold forward. unfold try_catch at 1. unfold bind at 1. unfold await at 1.
  unfold bind at 1. rewrite (payload_of_object _ _ _ Hn).
  unfold bind at 1, fetch at 1. simpl.
  destruct (net _); reflexivity.
Qed.






Lemma copied_field_is_not_model (k : jsstring) :
  In k copied_fields -> k <> str "model".
Proof.
  unfold copied_fields. simpl.
  intros [H|[H|[H|[H|[H|[H|[H|[]]]]]]]]; subst k; intro H; vm_compute in H;
    discriminate H.
Qed.

Lemma outbound_payload_copies (id : jsstring) (client : value) (k : jsstring) :
  In k copied_fields ->
  own_property k ((str "model", JStr id)
                  :: map (fun k => (k, opt_get client k)) copied_fields)
    = opt_get client k.
Proof.
  unfold copied_fields. simpl.
  intros [H|[H|[H|[H|[H|[H|[H|[]]]]]]]]; subst k; reflexivity.
Qed.

Lemma same_but_model_payload (id : jsstring) (c1 c2 : value) (log : list FetchCall) :
  same_but_model c1 c2 ->
  payloadForFriendli id c1 log = payloadForFriendli id c2 log.
Proof.
  intro H. unfold payloadForFriendli. run.
  rewrite !H; [reflexivity|..]; apply copied_field_is_not_model;
    unfold copied_fields; simpl; tauto.
Qed.

(** C5. Every call the route makes carries the JSON text of an object with
    eight properties: [model], which is the configured endpoint identifier,
    and the client's [prompt], [negative_prompt], [num_inference_steps],
    [guidance_scale], [width], [height] and [response_format], each copied as
    it is; and two client bodies that differ only in a [model] field of
    their own get the same calls and the same answer. *)
Theorem model_comes_from_configuration_only :
  forall (env : Env) (net : Network number) (log : list FetchCall),
    (forall (client : value) (c : FetchCall),
       In c (snd (POST env (Normal client) net [])) ->
       exists id props,
         configured (FRIENDLI_ENDPOINT_ID env) = Some id /\
         call_body c = JSON_stringify (JObj props) /\
         map fst props = str "model" :: copied_fields /\
         own_property (str "model") props = JStr id /\
         forall k, In k copied_fields -> own_property k props = opt_get client k)
    /\
    (forall c1 c2 : value,
       same_but_model c1 c2 ->
       POST env (Normal c1) net log = POST env (Normal c2) net log).
Proof.
  intros env net log. split.
  - intros client c Hin.
    destruct (outbound_call env client) as [c'|] eqn:Hc.
    + rewrite (POST_forwards _ _ _ _ _ Hc) in Hin.
      assert (Hcalls : c = c').
      { destruct (net c') as [r|e].
        - unfold try_catch in Hin.
          assert (Hlog : forall l, snd (handle_response r l) = l).
          { intro l. unfold handle_response.
            destruct (negb (resp_ok r)).
            - unfold bind at 1. rewrite errorDetails_reported.
              unfold bind, await, ret.
              destruct (ToString _); [destruct (json_response _ _)|]; reflexivity.
            - destruct (is_json_content_type _);
                cbn [read_json read_text unread bodyUsed body_response fst];
                unfold bind, await, ret.
              + destruct (resp_json r); reflexivity.
              + destruct (resp_text r); reflexivity. }
          specialize (Hlog ([] ++ [c'])).
          destruct (handle_response r ([] ++ [c'])) as [[reply|e] l];
            simpl in Hlog; subst l; simpl in Hin; destruct Hin as [H|[]];
            congruence.
        - simpl in Hin. destruct Hin as [H|[]]. congruence. }
      subst c'. unfold outbound_call in Hc.
      destruct (configured (FRIENDLI_API_TOKEN env)) as [token|]; [|discriminate].
      destruct (configured (FRIENDLI_API_ENDPOINT env)) as [endpoint|]; [|discriminate].
      destruct (configured (FRIENDLI_ENDPOINT_ID env)) as [id|]; [|discriminate].
      destruct (is_nullish client); [discriminate|].
      inversion Hc; subst c; clear Hc.
      exists id. eexists.
      split; [reflexivity|]. split; [reflexivity|]. split; [reflexivity|].
      split; [reflexivity|]. apply outbound_payload_copies.
    + exfalso. unfold outbound_call, POST in *.
      destruct (configured (FRIENDLI_API_TOKEN env)) as [token|]; [|exact Hin].
      destruct (configured (FRIENDLI_API_ENDPOINT env)) as [endpoint|]; [|exact Hin].
      destruct (configured (FRIENDLI_ENDPOINT_ID env)) as [id|]; [|exact Hin].
      destruct (is_nullish client) eqn:Hn; [|discriminate].
      destruct (payload_of_nullish id client [] Hn) as [e He].
      unfold forward, try_catch in Hin. unfold bind at 1, await at 1 in Hin.
      unfold bind at 1 in Hin. rewrite He in Hin. exact Hin.
  - intros c1 c2 Hsame. unfold POST.
    destruct (configured (FRIENDLI_API_TOKEN env)) as [token|]; [|reflexivity].
    destruct (configured (FRIENDLI_API_ENDPOINT env)) as [endpoint|]; [|reflexivity].
    destruct (configured (FRIENDLI_ENDPOINT_ID env)) as [id|]; [|reflexivity].
    unfold forward, try_catch, bind, await.
    rewrite (same_but_model_payload id c1 c2 log Hsame). reflexivity.
Qed.


End Route.

(** *** The route on the sample inputs *)

Import Sample.

Lemma red_cube_is_forwarded : outbound_call sample_env red_cube = Some red_cube_call.
Proof. reflexivity. Qed.





(** Why the statement on provider errors asks for a string form: a detail
    without one makes the template literal throw, and the outer [catch]
    answers 500 whatever the provider's status was. *)
Example unprintable_detail_is_a_500 :
  POST sample_env (Normal red_cube) (always unprintable_detail) [] =
    (Normal (NextResponse_json
               (error_body (str "Cannot convert object to primitive value")) 500),
     [red_cube_call]).
Proof. reflexivity. Qed.

(** The raw text of an error body that is not JSON is asked for after
    [json()] has read the body, and is not obtained: the answer carries the
    status text. *)
Example raw_text_is_not_reported :
  POST sample_env (Normal red_cube) (always service_down) [] =
    (Normal (NextResponse_json
               (error_body (str "Friendli API Error: Service Unavailable")) 503),
     [red_cube_call]).
Proof. reflexivity. Qed.

(** Why the statement on provider errors leaves 304 out: no reply with a
    body can be built for it, and the outer [catch] answers 500. *)
Example not_modified_is_a_500 :
  POST sample_env (Normal red_cube) (always not_modified) [] =
    (Normal (NextResponse_json
               (error_body (str "Response constructor: Invalid response status code 304"))
               500),
     [red_cube_call]).
Proof. reflexivity. Qed.

(** A body of [null] parses, but no field can be read from it: the route
    answers 500 without calling the provider. *)
Example null_body_is_a_500 :
  POST sample_env (Normal JNull) (always image_ready) [] =
    (Normal (NextResponse_json
               (error_body (str "Cannot read properties of null (reading 'prompt')"))
               500),
     []).
Proof. reflexivity. Qed.

Lemma same_but_model_extra (props : list (jsstring * value)) (v : value) :
  same_but_model (JObj props) (JObj ((str "model", v) :: props)).
Proof.
  intros k Hk. simpl. rewrite (jsstring_eqb_neq _ _ Hk). reflexivity.
Qed.

Lemma model_comes_from_configuration_only_witness :
  same_but_model red_cube red_cube_with_model /\
  POST sample_env (Normal red_cube) (always image_ready) [] =
    POST sample_env (Normal red_cube_with_model) (always image_ready) [] /\
  In red_cube_call
     (snd (POST sample_env (Normal red_cube_with_model) (always image_ready) [])) /\
  exists id props,
    configured (FRIENDLI_ENDPOINT_ID sample_env) = Some id /\
    call_body red_cube_call = JSON_stringify (JObj props) /\
    map fst props = str "model" :: copied_fields /\
    own_property (str "model") props = JStr id /\
    forall k, In k copied_fields ->
              own_property k props = opt_get red_cube_with_model k.
Proof.
  assert (H : same_but_model red_cube red_cube_with_model)
    by apply same_but_model_extra.
  assert (Hin : In red_cube_call
            (snd (POST sample_env (Normal red_cube_with_model) (always image_ready) [])))
    by (left; reflexivity).
  split; [exact H|]. split.
  - exact (proj2 (model_comes_from_configuration_only sample_env
                    (always image_ready) []) red_cube red_cube_with_model H).
  - split; [exact Hin|].
    exact (proj1 (model_comes_from_configuration_only sample_env
                    (always image_ready) []) red_cube_with_model red_cube_call Hin).
Defined.


End GatewayProofs.

(* ================================================================== *)
(** ** Properties of the generation handler *)
(* ================================================================== *)

Module ComposerProofs.
Import Js JsFacts Composer Spec.
Local Open Scope js_scope.

(** *** [trim] and blank strings *)

Lemma trimStart_blank (s : jsstring) : trimStart s = [] <-> blank s = true.
Proof.
  unfold blank. induction s as [|c r IH]; simpl.
  - tauto.
  - destruct (is_whitespace c); simpl.
    + exact IH.
    + split; discriminate.
Qed.

Lemma trimStart_head (s : jsstring) (c : N) (r : jsstring) :
  trimStart s = c :: r -> is_whitespace c = false.
Proof.
  induction s as [|a t IH]; simpl.
  - discriminate.
  - destruct (is_whitespace a) eqn:Ha.
    + exact IH.
    + intro H. inversion H; subst. exact Ha.
Qed.

Lemma blank_rev (s : jsstring) : blank (rev s) = blank s.
Proof.
  unfold blank. destruct (forallb is_whitespace s) eqn:Hs.
  - rewrite forallb_forall in *. intros x Hx. apply Hs, in_rev, Hx.
  - destruct (forallb is_whitespace (rev s)) eqn:Hr; [|reflexivity].
    rewrite <- Hs. symmetry. rewrite forallb_forall in *.
    intros x Hx. apply Hr. rewrite <- in_rev. exact Hx.
Qed.

Lemma trim_blank (s : jsstring) : trim s = [] <-> blank s = true.
Proof.
  unfold trim, trimEnd. split.
  - intro H. apply (f_equal (@rev N)) in H. rewrite rev_involutive in H.
    simpl in H. apply trimStart_blank in H. rewrite blank_rev in H.
    destruct (trimStart s) as [|c r] eqn:Hs.
    + apply trimStart_blank. exact Hs.
    + apply trimStart_head in Hs. unfold blank in H. simpl in H.
      rewrite Hs in H. discriminate.
  - intro H. apply trimStart_blank in H. rewrite H. reflexivity.
Qed.

(** The handler's guard [!prompt.trim()] holds exactly for blank prompts. *)
Lemma guard_blank (s : jsstring) : negb (string_truthy (trim s)) = blank s.
Proof.
  destruct (blank s) eqn:Hb.
  - apply trim_blank in Hb. rewrite Hb. reflexivity.
  - destruct (trim s) eqn:Ht; [|reflexivity].
    apply trim_blank in Ht. congruence.
Qed.

Section Page.
Context {E : Engine}.

(** *** The outcome of the [try] block *)

Lemma generate_success (s : State) (now : Z) (net : Network number) (w : World)
    (url : value) :
  answered s net url ->
  generate s now net w =
    (Normal tt, mkWorld (shown s now url (ui w)) (requests (sent s w))).
Proof.
  intros (r & data & Hnet & Hjson & Hok & Hurl & Htruthy).
  unfold generate, bind, fetch, await. rewrite Hnet, Hjson, Hok. simpl.
  rewrite Hurl, Htruthy. reflexivity.
Qed.

Lemma generate_failure (s : State) (now : Z) (net : Network number) (w : World) :
  (exists url, answered s net url) \/
  (exists e, generate s now net w = (Throw e, sent s w)).
Proof.
  unfold generate, bind, fetch, await, throw.
  destruct (net (api_route_call s)) as [r|e] eqn:Hnet; [|right; eexists; reflexivity].
  destruct (resp_json r) as [data|e] eqn:Hjson; [|right; eexists; reflexivity].
  destruct (resp_ok r) eqn:Hok; simpl.
  - destruct (truthy (imageUrlFromApi data)) eqn:Ht; simpl.
    + left. exists (imageUrlFromApi data), r, data. tauto.
    + right. eexists; reflexivity.
  - right. destruct (get data (str "error")) as [field|e]; [|eexists; reflexivity].
    destruct (ToString _); eexists; reflexivity.
Qed.

(** A blank prompt: one update of the error, nothing else. *)
Lemma click_blank (s : State) (now : Z) (net : Network number) (w : World) :
  blank (prompt s) = true ->
  handleGenerateClick s now net w =
    (Normal tt,
     mkWorld (mkState (prompt (ui w)) (negativePrompt (ui w)) (resolution (ui w))
                (steps (ui w)) (guidanceScale (ui w)) (generatedImageUrl (ui w))
                (isLoading (ui w))
                (Some (str "Please enter a prompt to generate an image."))
                (lastGeneratedPrompt (ui w)) (currentBlobUrl (ui w))
                (generationHistory (ui w)))
             (requests w)).
Proof.
  intro Hb. unfold handleGenerateClick. rewrite guard_blank, Hb. reflexivity.
Qed.

(** A prompt that is not blank: the handler runs the [try] block from the
    [started] state and ends by clearing the flag. *)
Lemma click_runs (s : State) (now : Z) (net : Network number) (w : World) :
  blank (prompt s) = false ->
  handleGenerateClick s now net w =
    try_finally (try_catch (generate s now net) on_failure) (setIsLoading false)
      (mkWorld (started s (ui w)) (requests w)).
Proof.
  intro Hb. unfold handleGenerateClick. rewrite guard_blank, Hb.
  destruct w as [st reqs]. unfold started.
  destruct (blob_url_set (currentBlobUrl s)); reflexivity.
Qed.

Lemma click_success (s : State) (now : Z) (net : Network number) (w : World)
    (url : value) :
  blank (prompt s) = false ->
  answered s net url ->
  handleGenerateClick s now net w =
    (Normal tt,
     mkWorld (mkState (prompt (ui w)) (negativePrompt (ui w)) (resolution (ui w))
                (steps (ui w)) (guidanceScale (ui w)) (Some url) false None
                (Some (prompt s))
                (if blob_url_set (currentBlobUrl s) then None
                 else currentBlobUrl (ui w))
                (mkEntry url (prompt s) now :: slice0 9 (generationHistory (ui w))))
             (requests w ++ [api_route_call s])).
Proof.
  intros Hb Ha. rewrite (click_runs _ _ _ _ Hb).
  unfold try_finally, try_catch. rewrite (generate_success _ now _ _ _ Ha).
  reflexivity.
Qed.

Lemma click_failure (s : State) (now : Z) (net : Network number) (w : World)
    (e : JsError) :
  blank (prompt s) = false ->
  generate s now net (mkWorld (started s (ui w)) (requests w)) =
    (Throw e, sent s (mkWorld (started s (ui w)) (requests w))) ->
  handleGenerateClick s now net w =
    (Normal tt,
     mkWorld (failed s (displayed_message e) (ui w))
             (requests w ++ [api_route_call s])).
Proof.
  intros Hb Hg. rewrite (click_runs _ _ _ _ Hb).
  unfold try_finally, try_catch. rewrite Hg. reflexivity.
Qed.


(** C3. A click with an empty or white-space-only prompt sends no request
    (the list of requests is what it was) and sets the error the page
    displays. *)
Theorem blank_prompt_sends_nothing :
  forall (s : State) (now : Z) (net : Network number) (w : World),
    blank (prompt s) = true ->
    exists w',
      handleGenerateClick s now net w = (Normal tt, w') /\
      requests w' = requests w /\
      error (ui w') = Some (str "Please enter a prompt to generate an image.").
Proof.
  intros s now net w Hb. eexists. split; [apply (click_blank _ _ _ _ Hb)|].
  split; reflexivity.
Qed.

(** C7. When the route answers in the 2xx range with a body that has no
    image URL at [data[0].url], the handler treats the answer as malformed:
    the error displayed is "API response structure unexpected or missing
    image URL." (which contains "response structure unexpected"), and no
    image is displayed. *)
Theorem missing_image_url_is_an_error :
  forall (s : State) (now : Z) (net : Network number) (w : World)
         (r : FetchResponse number) (responseData : value),
    blank (prompt s) = false ->
    net (api_route_call s) = Normal r ->
    (200 <= resp_status r < 300)%Z ->
    resp_json r = Normal responseData ->
    lacks_image_url responseData ->
    exists w',
      handleGenerateClick s now net w = (Normal tt, w') /\
      error (ui w') =
        Some (str "API response structure unexpected or missing image URL.") /\
      includes (str "API response structure unexpected or missing image URL.")
               (str "response structure unexpected") = true /\
      generatedImageUrl (ui w') = None.
Proof.
  intros s now net w r data Hb Hnet Hstatus Hjson Hlacks.
  assert (Hok : resp_ok r = true)
    by (apply resp_ok_range; exact Hstatus).
  eexists. split.
  - apply (click_failure s now net w
             (new_Error (str "API response structure unexpected or missing image URL."))
             Hb).
    unfold generate, bind, fetch, await, throw. rewrite Hnet, Hjson, Hok. simpl.
    unfold lacks_image_url in Hlacks. rewrite Hlacks. reflexivity.
  - repeat split; reflexivity.
Qed.

(** C8. A successful generation puts the new entry
    [{ imageUrl, prompt, timestamp }] in front of the first nine entries of
    the history, so that a history of [n] entries becomes one of
    [min (n + 1) 10]; any other click leaves the history as it is; and a
    history of at most ten entries stays one. *)
Theorem history_is_prepended_and_capped :
  forall (s : State) (now : Z) (net : Network number) (w : World),
    let before := generationHistory (ui w) in
    let after := generationHistory (ui (snd (handleGenerateClick s now net w))) in
    (forall url, generation_succeeds s net url ->
       after = mkEntry url (prompt s) now :: firstn 9 before /\
       List.length after = Nat.min (List.length before + 1) 10)
    /\
    ((~ exists url, generation_succeeds s net url) -> after = before)
    /\
    (List.length before <= 10 -> List.length after <= 10).
Proof.
  intros s now net w before after.
  assert (Hsucc : forall url, generation_succeeds s net url ->
            after = mkEntry url (prompt s) now :: firstn 9 before /\
            List.length after = Nat.min (List.length before + 1) 10).
  { intros url [Hb Ha]. subst after before.
    rewrite (click_success s now net w url Hb Ha).
    cbn [snd ui generationHistory]. split; [reflexivity|].
    unfold slice0. cbn [List.length]. rewrite length_firstn. lia. }
  assert (Hfail : (~ exists url, generation_succeeds s net url) -> after = before).
  { intro Hno. subst after before.
    destruct (blank (prompt s)) eqn:Hb.
    - rewrite (click_blank _ now net w Hb). reflexivity.
    - destruct (generate_failure s now net (mkWorld (started s (ui w)) (requests w)))
        as [[url Ha]|[e He]].
      + exfalso. apply Hno. exists url. split; assumption.
      + rewrite (click_failure s now net w e Hb He). reflexivity. }
  split; [exact Hsucc|]. split; [exact Hfail|].
  intro Hlen.
  destruct (blank (prompt s)) eqn:Hb.
  - rewrite Hfail; [exact Hlen|]. intros [url [Hb' _]]. congruence.
  - destruct (generate_failure s now net (mkWorld (started s (ui w)) (requests w)))
      as [[url Ha]|[e He]].
    + destruct (Hsucc url (conj Hb Ha)) as [_ Hl]. rewrite Hl. lia.
    + subst after before. rewrite (click_failure s now net w e Hb He). exact Hlen.
Qed.

(** C9. The handler always returns, and every run that goes past the prompt
    check (success, error from the route, malformed answer, exception) ends
    with [isLoading] cleared; a run stopped by the prompt check does not
    touch the flag, so a click made while nothing is loading never leaves
    the flag set. *)
Theorem loading_flag_is_cleared :
  forall (s : State) (now : Z) (net : Network number) (w : World),
    blank (prompt s) = false \/ isLoading (ui w) = false ->
    fst (handleGenerateClick s now net w) = Normal tt /\
    isLoading (ui (snd (handleGenerateClick s now net w))) = false.
Proof.
  intros s now net w H.
  destruct (blank (prompt s)) eqn:Hb.
  - destruct H as [H|H]; [discriminate|].
    rewrite (click_blank _ now net w Hb). simpl. split; [reflexivity|exact H].
  - destruct (generate_failure s now net (mkWorld (started s (ui w)) (requests w)))
      as [[url Ha]|[e He]].
    + rewrite (click_success s now net w url Hb Ha). split; reflexivity.
    + rewrite (click_failure s now net w e Hb He). split; reflexivity.
Qed.

Lemma json_document_object (l : list (jsstring * value)) :
  json_document (JObj l) = JObj (document_props l).
Proof. reflexivity. Qed.

Lemma document_props_cons (k : jsstring) (v : value) (r : list (jsstring * value)) :
  document_props ((k, v) :: r) =
    if is_undefined v then document_props r
    else (k, json_document v) :: document_props r.
Proof. destruct v; reflexivity. Qed.

(** The requests of a click: none, or the one [api_route_call]. *)
Lemma click_requests (s : State) (now : Z) (net : Network number) (w : World) :
  requests (snd (handleGenerateClick s now net w)) = requests w \/
  requests (snd (handleGenerateClick s now net w)) = requests w ++ [api_route_call s].
Proof.
  destruct (blank (prompt s)) eqn:Hb.
  - left. rewrite (click_blank _ now net w Hb). reflexivity.
  - right.
    destruct (generate_failure s now net (mkWorld (started s (ui w)) (requests w)))
      as [[url Ha]|[e He]].
    + rewrite (click_success s now net w url Hb Ha). reflexivity.
    + rewrite (click_failure s now net w e Hb He). reflexivity.
Qed.

(** C10. Every request the handler sends carries the JSON text of the
    document of [payloadForApiRoute]; in the payload, [negative_prompt] is
    the negative prompt when that is not empty and [undefined] when it is;
    in the document, the property is present exactly when the negative
    prompt is not empty, and it is never the empty string. *)
Theorem empty_negative_prompt_is_left_out :
  forall (s : State) (now : Z) (net : Network number) (c : FetchCall),
    (In c (requests (snd (handleGenerateClick s now net (mkWorld s [])))) ->
     call_body c = JSON_text (json_document (payloadForApiRoute s)))
    /\
    opt_get (payloadForApiRoute s) (str "negative_prompt") =
      (if string_truthy (negativePrompt s) then JStr (negativePrompt s)
       else JUndefined)
    /\
    exists props,
      json_document (payloadForApiRoute s) = JObj props /\
      has_own (str "negative_prompt") props = string_truthy (negativePrompt s) /\
      own_property (str "negative_prompt") props =
        (if string_truthy (negativePrompt s) then JStr (negativePrompt s)
         else JUndefined) /\
      own_property (str "negative_prompt") props <> JStr [].
Proof.
  intros s now net c. split; [|split].
  - intro Hin.
    destruct (click_requests s now net (mkWorld s [])) as [H|H];
      rewrite H in Hin; simpl in Hin.
    + contradiction.
    + destruct Hin as [Hc|[]]. subst c. reflexivity.
  - unfold payloadForApiRoute.
    destruct (getResolutionDimensions (resolution s)) as [width height].
    destruct (negativePrompt s); reflexivity.
  - unfold payloadForApiRoute.
    destruct (getResolutionDimensions (resolution s)) as [width height].
    eexists. split; [apply json_document_object|].
    rewrite !document_props_cons.
    destruct (negativePrompt s) as [|c0 np];
      destruct (is_undefined (first_number (steps s)));
      destruct (is_undefined (first_number (guidanceScale s)));
      destruct (is_undefined width); destruct (is_undefined height);
      (split; [reflexivity|]; split; [reflexivity|]);
      cbv - [json_document]; discriminate.
Qed.

End Page.

(** *** The handler on the sample inputs *)

Import Sample.

(** Scenario 1 of the specification: what the page sends for the red cube,
    and what it shows once the image is there. *)
Example red_cube_document :
  json_document (payloadForApiRoute fresh_page) =
    JObj [ (str "prompt", JStr (str "a red cube"));
           (str "num_inference_steps", JNum (Some 30%Z));
           (str "guidance_scale", JNum (Some 7%Z));
           (str "width", JNum (Some 1024%Z));
           (str "height", JNum (Some 1024%Z));
           (str "response_format", JStr (str "url")) ].
Proof. reflexivity. Qed.

Example red_cube_is_shown :
  handleGenerateClick fresh_page 11 (always image_ready) (mkWorld fresh_page []) =
    (Normal tt,
     mkWorld
       (mkState (str "a red cube") [] (str "1024x1024") [Some 30%Z] [Some 7%Z]
          (Some (JStr (str "https://x/img.png"))) false None
          (Some (str "a red cube")) None
          [ mkEntry (JStr (str "https://x/img.png")) (str "a red cube") 11 ])
       [ api_route_call fresh_page ]).
Proof. reflexivity. Qed.

Lemma blank_prompt_sends_nothing_witness :
  blank (prompt blank_page) = true /\
  exists w',
    handleGenerateClick blank_page 11 (always image_ready) (mkWorld blank_page [])
      = (Normal tt, w') /\
    requests w' = [] /\
    error (ui w') = Some (str "Please enter a prompt to generate an image.").
Proof.
  assert (H : blank (prompt blank_page) = true) by reflexivity.
  split; [exact H|].
  exact (blank_prompt_sends_nothing blank_page 11 (always image_ready)
           (mkWorld blank_page []) H).
Defined.

Lemma missing_image_url_is_an_error_witness :
  blank (prompt fresh_page) = false /\
  (200 <= resp_status no_image < 300)%Z /\
  lacks_image_url (JObj [ (str "data", JArr []) ]) /\
  exists w',
    handleGenerateClick fresh_page 11 (always no_image) (mkWorld fresh_page [])
      = (Normal tt, w') /\
    error (ui w') =
      Some (str "API response structure unexpected or missing image URL.") /\
    includes (str "API response structure unexpected or missing image URL.")
             (str "response structure unexpected") = true /\
    generatedImageUrl (ui w') = None.
Proof.
  assert (H1 : blank (prompt fresh_page) = false) by reflexivity.
  assert (H2 : (200 <= resp_status no_image < 300)%Z) by (simpl; lia).
  assert (H3 : lacks_image_url (JObj [ (str "data", JArr []) ])) by reflexivity.
  split; [exact H1|]. split; [exact H2|]. split; [exact H3|].
  exact (missing_image_url_is_an_error fresh_page 11 (always no_image)
           (mkWorld fresh_page []) no_image (JObj [ (str "data", JArr []) ])
           H1 eq_refl H2 eq_refl H3).
Defined.

Lemma busy_page_succeeds :
  generation_succeeds busy_page (always image_ready) (JStr (str "https://x/img.png")).
Proof.
  split; [reflexivity|]. exists image_ready, image_body.
  repeat split; reflexivity.
Qed.

Lemma busy_page_fails_offline :
  ~ exists url, generation_succeeds busy_page unreachable url.
Proof.
  intros [url [_ (r & data & Hnet & _)]]. discriminate Hnet.
Qed.

Lemma history_is_prepended_and_capped_witness :
  generation_succeeds busy_page (always image_ready) (JStr (str "https://x/img.png")) /\
  (generationHistory
     (ui (snd (handleGenerateClick busy_page 11 (always image_ready)
                 (mkWorld busy_page []))))
   = mkEntry (JStr (str "https://x/img.png")) (prompt busy_page) 11
     :: firstn 9 (generationHistory busy_page) /\
   List.length
     (generationHistory
        (ui (snd (handleGenerateClick busy_page 11 (always image_ready)
                    (mkWorld busy_page [])))))
   = Nat.min (List.length (generationHistory busy_page) + 1) 10) /\
  (~ exists url, generation_succeeds busy_page unreachable url) /\
  generationHistory
    (ui (snd (handleGenerateClick busy_page 11 unreachable (mkWorld busy_page []))))
  = generationHistory busy_page /\
  List.length (generationHistory busy_page) <= 10 /\
  List.length
    (generationHistory
       (ui (snd (handleGenerateClick busy_page 11 (always image_ready)
                   (mkWorld busy_page []))))) <= 10.
Proof.
  assert (H1 := busy_page_succeeds).
  assert (H2 := busy_page_fails_offline).
  assert (H3 : List.length (generationHistory busy_page) <= 10) by (simpl; lia).
  split; [exact H1|]. split.
  - exact (proj1 (history_is_prepended_and_capped busy_page 11 (always image_ready)
                    (mkWorld busy_page [])) _ H1).
  - split; [exact H2|]. split.
    + exact (proj1 (proj2 (history_is_prepended_and_capped busy_page 11 unreachable
                             (mkWorld busy_page []))) H2).
    + split; [exact H3|].
      exact (proj2 (proj2 (history_is_prepended_and_capped busy_page 11
                             (always image_ready) (mkWorld busy_page []))) H3).
Defined.

Lemma loading_flag_is_cleared_witness :
  (blank (prompt fresh_page) = false \/ isLoading (ui (mkWorld fresh_page [])) = false) /\
  fst (handleGenerateClick fresh_page 11 unreachable (mkWorld fresh_page []))
    = Normal tt /\
  isLoading (ui (snd (handleGenerateClick fresh_page 11 unreachable
                        (mkWorld fresh_page [])))) = false.
Proof.
  assert (H : blank (prompt fresh_page) = false
              \/ isLoading (ui (mkWorld fresh_page [])) = false)
    by (left; reflexivity).
  split; [exact H|].
  exact (loading_flag_is_cleared fresh_page 11 unreachable (mkWorld fresh_page []) H).
Defined.

Lemma empty_negative_prompt_is_left_out_witness :
  In (api_route_call fresh_page)
     (requests (snd (handleGenerateClick fresh_page 11 (always image_ready)
                       (mkWorld fresh_page [])))) /\
  call_body (api_route_call fresh_page)
    = JSON_text (json_document (payloadForApiRoute fresh_page)).
Proof.
  assert (H : In (api_route_call fresh_page)
                (requests (snd (handleGenerateClick fresh_page 11 (always image_ready)
                                  (mkWorld fresh_page [])))))
    by (left; reflexivity).
  split; [exact H|].
  exact (proj1 (empty_negative_prompt_is_left_out fresh_page 11 (always image_ready)
                  (api_route_call fresh_page)) H).
Defined.

End ComposerProofs.

(* ================================================================== *)
(** ** Further facts about strings and documents *)
(* ================================================================== *)

Module StringFacts.
Import Js JsFacts Spec.

Lemma starts_with_app (p b : jsstring) : starts_with p (p ++ b) = true.
Proof.
  induction p as [|c p IH]; simpl.
  - reflexivity.
  - rewrite N.eqb_refl. exact IH.
Qed.

Lemma starts_with_split (p s : jsstring) :
  starts_with p s = true -> exists b, s = p ++ b.
Proof.
  revert s. induction p as [|c p IH]; intros s H.
  - exists s. reflexivity.
  - destruct s as [|d s]; simpl in H; [discriminate|].
    apply andb_true_iff in H. destruct H as [Hc Hp].
    apply N.eqb_eq in Hc. subst d.
    destruct (IH s Hp) as [b Hb]. exists b. simpl. rewrite <- Hb. reflexivity.
Qed.

(** [s.includes(p)] holds exactly when [p] occurs somewhere in [s]. *)
Lemma includes_occurs (s p : jsstring) :
  includes s p = true <-> exists a b, s = a ++ p ++ b.
Proof.
  split.
  - induction s as [|c s IH]; simpl; intro H.
    + apply orb_true_iff in H. destruct H as [H|H]; [|discriminate].
      destruct (starts_with_split _ _ H) as [b Hb]. exists [], b. exact Hb.
    + apply orb_true_iff in H. destruct H as [H|H].
      * destruct (starts_with_split _ _ H) as [b Hb]. exists [], b. exact Hb.
      * destruct (IH H) as (a & b & Hab). exists (c :: a), b.
        simpl. rewrite <- Hab. reflexivity.
  - intros (a & b & Hs). subst s. induction a as [|c a IH].
    + simpl app. destruct (p ++ b) eqn:Hpb; simpl; rewrite <- ?Hpb;
        rewrite starts_with_app; reflexivity.
    + simpl. rewrite IH. apply orb_true_r.
Qed.

(** The parts [split] gives never hold the separator, and joining them
    with it gives the string back. *)
Lemma split_on_parts (sep : N) (s : jsstring) :
  Forall (fun part => ~ In sep part) (split_on sep s).
Proof.
  induction s as [|c s IH]; simpl.
  - constructor; [intros []|constructor].
  - destruct (N.eqb_spec c sep) as [Hc|Hc].
    + constructor; [intros []|exact IH].
    + destruct (split_on sep s) as [|h t].
      * constructor; [|constructor]. intros [H|[]]. congruence.
      * inversion IH; subst. constructor; [|assumption].
        intros [H|H]; [congruence|contradiction].
Qed.

Lemma split_on_nonempty (sep : N) (s : jsstring) : split_on sep s <> [].
Proof.
  destruct s as [|c s]; simpl; [discriminate|].
  destruct (c =? sep)%N; [discriminate|].
  destruct (split_on sep s); discriminate.
Qed.

Lemma split_on_whole (sep : N) (a : jsstring) :
  ~ In sep a -> split_on sep a = [a].
Proof.
  induction a as [|c a IH]; intro H; simpl.
  - reflexivity.
  - destruct (N.eqb_spec c sep) as [Hc|Hc].
    + exfalso. apply H. left. exact Hc.
    + rewrite IH; [reflexivity|]. intro Hin. apply H. right. exact Hin.
Qed.

Lemma split_on_first (sep : N) (a b : jsstring) :
  ~ In sep a -> split_on sep (a ++ sep :: b) = a :: split_on sep b.
Proof.
  induction a as [|c a IH]; intro H; simpl.
  - rewrite N.eqb_refl. reflexivity.
  - destruct (N.eqb_spec c sep) as [Hc|Hc].
    + exfalso. apply H. left. exact Hc.
    + rewrite IH; [reflexivity|]. intro Hin. apply H. right. exact Hin.
Qed.

Lemma trimStart_length (s : jsstring) :
  List.length (trimStart s) <= List.length s.
Proof.
  induction s as [|c s IH]; simpl; [lia|].
  destruct (is_whitespace c); simpl; lia.
Qed.

Lemma trim_length (s : jsstring) : List.length (trim s) <= List.length s.
Proof.
  unfold trim, trimEnd. rewrite length_rev.
  etransitivity; [apply trimStart_length|]. rewrite length_rev.
  apply trimStart_length.
Qed.

(** White space in front of an occurrence is all [trimStart] can take. *)
Lemma trimStart_keeps (a p b : jsstring) (c : N) :
  is_whitespace c = false ->
  exists a', trimStart (a ++ (c :: p) ++ b) = a' ++ (c :: p) ++ b.
Proof.
  intro Hc. induction a as [|x a IH]; simpl.
  - rewrite Hc. exists []. reflexivity.
  - destruct (is_whitespace x).
    + exact IH.
    + exists (x :: a). reflexivity.
Qed.

Lemma trim_keeps (a p b t q : jsstring) (c l : N) :
  p = c :: t ->
  p = q ++ [l] ->
  is_whitespace c = false ->
  is_whitespace l = false ->
  exists a' b', trim (a ++ p ++ b) = a' ++ p ++ b'.
Proof.
  intros Hhead Hlast Hc Hl. unfold trim, trimEnd.
  destruct (trimStart_keeps a t b c Hc) as [a' Ha']. rewrite <- Hhead in Ha'.
  rewrite Ha'.
  assert (Hrev : rev (a' ++ p ++ b) = rev b ++ (l :: rev q) ++ rev a').
  { rewrite Hlast.
    repeat first [rewrite rev_app_distr | rewrite <- app_assoc | progress simpl].
    reflexivity. }
  rewrite Hrev.
  destruct (trimStart_keeps (rev b) (rev q) (rev a') l Hl) as [b' Hb'].
  rewrite Hb'. exists a', (rev b'). rewrite Hlast.
  repeat first [rewrite rev_app_distr | rewrite rev_involutive
               | rewrite <- app_assoc | progress simpl].
  reflexivity.
Qed.

Lemma Forall_first {A : Type} (P : A -> Prop) (n : nat) (l : list A) :
  Forall P l -> Forall P (firstn n l).
Proof.
  revert n. induction l as [|x l IH]; intros n H.
  - destruct n; constructor.
  - destruct n; [constructor|]. inversion H; subst.
    simpl. constructor; [assumption|]. apply IH. assumption.
Qed.

End StringFacts.

(* ================================================================== *)
(** ** Further properties of the route *)
(* ================================================================== *)

Module GatewayExtras.
Import Js JsFacts Gateway Composer Spec PageSpec StringFacts GatewayProofs.
Local Open Scope js_scope.

Section Route.
Context {E : Engine}.

(** Handling the provider's response makes no call. *)
Lemma handle_response_log (r : FetchResponse number) (l : list FetchCall) :
  snd (handle_response r l) = l.
Proof.
  unfold handle_response. destruct (negb (resp_ok r)).
  - unfold bind at 1. rewrite errorDetails_reported.
    unfold bind, await, ret.
    destruct (ToString _); [destruct (json_response _ _)|]; reflexivity.
  - destruct (is_json_content_type _);
      cbn [read_json read_text unread bodyUsed body_response fst];
      unfold bind, await, ret.
    + destruct (resp_json r); reflexivity.
    + destruct (resp_text r); reflexivity.
Qed.

Lemma guarded_response_log (r : FetchResponse number) (l : list FetchCall) :
  snd (try_catch (handle_response r) internal_error l) = l.
Proof.
  unfold try_catch. pose proof (handle_response_log r l) as H.
  destruct (handle_response r l) as [[reply|e] l']; simpl in *; exact H.
Qed.

(** Without a call to make, the route makes none. *)
Lemma POST_without_call (env : Env) (client : value) (net : Network number)
    (log : list FetchCall) :
  outbound_call env client = None ->
  snd (POST env (Normal client) net log) = log.
Proof.
  unfold outbound_call, POST.
  destruct (configured (FRIENDLI_API_TOKEN env)) as [token|]; [|reflexivity].
  destruct (configured (FRIENDLI_API_ENDPOINT env)) as [endpoint|]; [|reflexivity].
  destruct (configured (FRIENDLI_ENDPOINT_ID env)) as [id|]; [|reflexivity].
  destruct (is_nullish client) eqn:Hn; [|discriminate]. intros _.
  destruct (payload_of_nullish id client log Hn) as [e He].
  unfold forward, try_catch. unfold bind at 1, await at 1. unfold bind at 1.
  rewrite He. reflexivity.
Qed.

(** X1. One invocation of [POST] makes at most one outbound call, whatever
    happens afterwards (no retry): exactly one when the three settings are
    there and the body parsed to a value other than [null], to the
    configured endpoint with the credential as bearer token, and none
    otherwise. *)
Theorem single_outbound_attempt :
  forall (env : Env) (request_json : completion value) (net : Network number)
         (log : list FetchCall),
    snd (POST env request_json net log) =
      log ++ match request_json with
             | Normal client =>
                 match outbound_call env client with
                 | Some c => [c]
                 | None => []
                 end
             | Throw _ => []
             end
    /\
    List.length (snd (POST env request_json net log)) <= List.length log + 1
    /\
    (forall client c,
       outbound_call env client = Some c ->
       exists token endpoint,
         configured (FRIENDLI_API_TOKEN env) = Some token /\
         configured (FRIENDLI_API_ENDPOINT env) = Some endpoint /\
         call_url c = endpoint /\
         call_method c = str "POST" /\
         In (str "Authorization", str "Bearer " ++ token) (call_headers c)).
Proof.
  intros env request_json net log.
  assert (Hcalls :
    snd (POST env request_json net log) =
      log ++ match request_json with
             | Normal client =>
                 match outbound_call env client with
                 | Some c => [c]
                 | None => []
                 end
             | Throw _ => []
             end).
  { destruct request_json as [client|e].
    - destruct (outbound_call env client) as [c|] eqn:Hc.
      + rewrite (POST_forwards _ _ _ _ _ Hc).
        destruct (net c) as [r|e]; [apply guarded_response_log|reflexivity].
      + rewrite app_nil_r. apply POST_without_call. exact Hc.
    - rewrite app_nil_r. unfold POST.
      destruct (configured (FRIENDLI_API_TOKEN env)); [|reflexivity].
      destruct (configured (FRIENDLI_API_ENDPOINT env)); [|reflexivity].
      destruct (configured (FRIENDLI_ENDPOINT_ID env)); reflexivity. }
  split; [exact Hcalls|]. split.
  - rewrite Hcalls, length_app.
    destruct request_json as [client|e]; [|simpl; lia].
    destruct (outbound_call env client); simpl; lia.
  - intros client c Hc. unfold outbound_call in Hc.
    destruct (configured (FRIENDLI_API_TOKEN env)) as [token|]; [|discriminate].
    destruct (configured (FRIENDLI_API_ENDPOINT env)) as [endpoint|]; [|discriminate].
    destruct (configured (FRIENDLI_ENDPOINT_ID env)) as [id|]; [|discriminate].
    destruct (is_nullish client); [discriminate|].
    inversion Hc; subst c. exists token, endpoint.
    repeat split; try reflexivity. simpl. right. left. reflexivity.
Qed.




(** X5. The route takes a content type for JSON exactly when the header is
    there and the text "application/json" occurs in it, anywhere and in
    this very case: parameters after it (a charset) do not matter. *)
Theorem json_content_type_is_a_substring_test :
  forall contentType : option jsstring,
    is_json_content_type contentType = true <->
    exists a b, contentType = Some (a ++ str "application/json" ++ b).
Proof.
  intro ct. unfold is_json_content_type. split.
  - destruct ct as [s|]; [|discriminate]. intro H.
    apply andb_true_iff in H. destruct H as [_ H].
    apply includes_occurs in H. destruct H as (a & b & Hs).
    exists a, b. rewrite Hs. reflexivity.
  - intros (a & b & Hct). subst ct. apply andb_true_iff. split.
    + destruct a; reflexivity.
    + apply includes_occurs. exists a, b. reflexivity.
Qed.


Lemma document_of_copies (client : value) (ks : list jsstring) :
  document_props (map (fun k => (k, opt_get client k)) ks) =
    flat_map (fun k => if is_undefined (opt_get client k) then []
                       else [(k, json_document (opt_get client k))]) ks.
Proof.
  induction ks as [|k ks IH]; [reflexivity|].
  cbn [map flat_map]. rewrite ComposerProofs.document_props_cons, IH.
  destruct (is_undefined (opt_get client k)); reflexivity.
Qed.

Lemma outbound_document (id : jsstring) (client : value) :
  json_document (outbound_payload id client) =
    JObj ((str "model", JStr id) :: kept_fields client).
Proof.
  unfold outbound_payload.
  etransitivity; [apply ComposerProofs.json_document_object|]. f_equal.
  etransitivity; [apply ComposerProofs.document_props_cons|].
  cbn [is_undefined json_document]. f_equal. apply document_of_copies.
Qed.

(** The text a call carries: [model], then the fields the body has. *)
Lemma outbound_call_body (env : Env) (client : value) (c : FetchCall) :
  outbound_call env client = Some c ->
  exists id,
    configured (FRIENDLI_ENDPOINT_ID env) = Some id /\
    call_body c = JSON_text (JObj ((str "model", JStr id) :: kept_fields client)).
Proof.
  intro Hc. unfold outbound_call in Hc.
  destruct (configured (FRIENDLI_API_TOKEN env)) as [token|]; [|discriminate].
  destruct (configured (FRIENDLI_API_ENDPOINT env)) as [endpoint|]; [|discriminate].
  destruct (configured (FRIENDLI_ENDPOINT_ID env)) as [id|]; [|discriminate].
  destruct (is_nullish client); [discriminate|].
  inversion Hc; subst c; clear Hc. exists id. split; [reflexivity|].
  cbn [call_body friendli_call]. unfold JSON_stringify.
  rewrite outbound_document. reflexivity.
Qed.

(** A fully configured route has a call to make for every body other than
    [null]. *)
Lemma configured_call (env : Env) (client : value) :
  fully_configured env = true -> is_nullish client = false ->
  exists c, outbound_call env client = Some c.
Proof.
  unfold fully_configured, outbound_call. intros Henv Hn.
  destruct (configured (FRIENDLI_API_TOKEN env)); [|discriminate].
  destruct (configured (FRIENDLI_API_ENDPOINT env)); [|discriminate].
  destruct (configured (FRIENDLI_ENDPOINT_ID env)); [|discriminate].
  rewrite Hn. eexists. reflexivity.
Qed.

(** The call [POST] makes for such a body, whatever the provider does. *)
Lemma POST_call (env : Env) (client : value) (net : Network number)
    (log : list FetchCall) (c : FetchCall) :
  outbound_call env client = Some c ->
  snd (POST env (Normal client) net log) = log ++ [c].
Proof.
  intro Hc. rewrite (POST_forwards _ _ _ _ _ Hc).
  destruct (net c) as [r|e]; [apply guarded_response_log|reflexivity].
Qed.

(** X6. The route does not check the shape of the body.  For every body
    other than [null], a fully configured [POST] makes one call, and a
    copied field the body lacks is left out of the document that call
    carries (not sent as [null]): the document is [model] followed by the
    fields the body has; for a body that is a boolean, a number, a string
    or an array it is [{ model }] alone. *)
Theorem absent_fields_are_left_out :
  forall (env : Env) (client : value) (net : Network number)
         (log : list FetchCall),
    fully_configured env = true ->
    is_nullish client = false ->
    exists id c,
      configured (FRIENDLI_ENDPOINT_ID env) = Some id /\
      snd (POST env (Normal client) net log) = log ++ [c] /\
      call_body c = JSON_text (JObj ((str "model", JStr id) :: kept_fields client)) /\
      (is_primitive_or_array client = true ->
       call_body c = JSON_text (JObj [ (str "model", JStr id) ])).
Proof.
  intros env client net log Henv Hn.
  destruct (configured_call env client Henv Hn) as [c Hc].
  destruct (outbound_call_body env client c Hc) as (id & Hid & Hbody).
  exists id, c. split; [exact Hid|].
  split; [exact (POST_call env client net log c Hc)|].
  split; [exact Hbody|].
  intro Hp. rewrite Hbody. destruct client; try discriminate Hp; reflexivity.
Qed.

(** The two dimensions are numbers, or [undefined] when the string has no
    part for them. *)
Lemma dimension_shape (parts : list jsstring) (i : nat) :
  nth i (map (fun p => JNum (Number_of_string p)) parts) JUndefined = JUndefined \/
  exists n, nth i (map (fun p => JNum (Number_of_string p)) parts) JUndefined = JNum n.
Proof.
  revert i. induction parts as [|p parts IH]; intro i.
  - left. destruct i; reflexivity.
  - destruct i as [|i]; simpl.
    + right. eexists. reflexivity.
    + apply IH.
Qed.

(** X7. From the page to the provider: when [request.json()] gives a
    fully configured [POST] the document the page serialised, the one call
    [POST] makes carries the page's document, property for property, with
    [model] put in front.  (In particular it has a [negative_prompt] only
    when the page's has one.) *)
Theorem provider_receives_the_page_fields :
  forall (s : State) (env : Env) (net : Network number) (log : list FetchCall),
    fully_configured env = true ->
    exists id props c,
      configured (FRIENDLI_ENDPOINT_ID env) = Some id /\
      json_document (payloadForApiRoute s) = JObj props /\
      snd (POST env (Normal (json_document (payloadForApiRoute s))) net log)
        = log ++ [c] /\
      call_body c = JSON_text (JObj ((str "model", JStr id) :: props)).
Proof.
  intros s env net log Henv.
  assert (Hn : is_nullish (json_document (payloadForApiRoute s)) = false).
  { unfold payloadForApiRoute, getResolutionDimensions.
    rewrite ComposerProofs.json_document_object. reflexivity. }
  destruct (configured_call env _ Henv Hn) as [c Hc].
  destruct (outbound_call_body env _ c Hc) as (id & Hid & Hbody).
  pose proof (POST_call env _ net log c Hc) as Hlog.
  exists id. clear Hn.
  revert c Hc Hlog Hbody.
  unfold payloadForApiRoute, getResolutionDimensions.
  set (parts := map (fun p => JNum (Number_of_string p))
                    (split_on 120 (resolution s))).
  rewrite ComposerProofs.json_document_object. intros c _ Hlog Hbody.
  eexists. exists c. split; [exact Hid|]. split; [reflexivity|].
  split; [exact Hlog|].
  rewrite Hbody. clear Hbody Hlog.
  do 2 f_equal.
  destruct (dimension_shape (split_on 120 (resolution s)) 0) as [Hw|[w Hw]];
    destruct (dimension_shape (split_on 120 (resolution s)) 1) as [Hh|[h Hh]];
    fold parts in Hw, Hh; rewrite Hw, Hh;
    destruct (negativePrompt s); destruct (steps s); destruct (guidanceScale s);
    vm_compute; reflexivity.
Qed.

End Route.
End GatewayExtras.

(* ================================================================== *)
(** ** Further properties of the generation handler *)
(* ================================================================== *)

Module ComposerExtras.
Import Js JsFacts Composer Spec Page PageSpec StringFacts ComposerProofs.
Local Open Scope js_scope.

Section Page.
Context {E : Engine}.

(** The prompt check's message and the [catch] block's message are never
    empty. *)
Lemma displayed_message_nonempty (e : JsError) : displayed_message e <> [].
Proof.
  unfold displayed_message. destruct (err_message e) eqn:He; simpl.
  - discriminate.
  - discriminate.
Qed.

Lemma not_blank_nonempty (s : jsstring) : blank s = false -> string_truthy s = true.
Proof. destruct s; [discriminate|reflexivity]. Qed.

(** The three ways a click ends. *)
Lemma click_cases (s : State) (now : Z) (net : Network number) (w : World) :
  (blank (prompt s) = true /\
   handleGenerateClick s now net w =
     (Normal tt,
      mkWorld (with_error (Some (str "Please enter a prompt to generate an image."))
                          (ui w))
              (requests w)))
  \/
  (blank (prompt s) = false /\
   exists url,
     answered s net url /\
     handleGenerateClick s now net w =
       (Normal tt,
        mkWorld (mkState (prompt (ui w)) (negativePrompt (ui w)) (resolution (ui w))
                   (steps (ui w)) (guidanceScale (ui w)) (Some url) false None
                   (Some (prompt s))
                   (if blob_url_set (currentBlobUrl s) then None
                    else currentBlobUrl (ui w))
                   (mkEntry url (prompt s) now
                    :: slice0 9 (generationHistory (ui w))))
                (requests w ++ [api_route_call s])))
  \/
  (blank (prompt s) = false /\
   (~ exists url, answered s net url) /\
   exists e,
     generate s now net (mkWorld (started s (ui w)) (requests w)) =
       (Throw e, sent s (mkWorld (started s (ui w)) (requests w))) /\
     handleGenerateClick s now net w =
       (Normal tt,
        mkWorld (failed s (displayed_message e) (ui w))
                (requests w ++ [api_route_call s]))).
Proof.
  destruct (blank (prompt s)) eqn:Hb.
  - left. split; [reflexivity|]. apply (click_blank _ _ _ _ Hb).
  - right.
    destruct (generate_failure s now net (mkWorld (started s (ui w)) (requests w)))
      as [[url Ha]|[e He]].
    + left. split; [reflexivity|]. exists url. split; [exact Ha|].
      apply (click_success _ _ _ _ _ Hb Ha).
    + right. split; [reflexivity|]. split.
      * intros [url Ha].
        rewrite (generate_success s now net _ url Ha) in He. discriminate He.
      * exists e. split; [exact He|]. apply (click_failure _ _ _ _ _ Hb He).
Qed.

(** X8. When the route answers outside the 2xx range with [{ error: text }],
    the page displays that text as it is; when the text is empty, it
    displays "API request failed: " and the status text.  No image is
    displayed, the history is not touched, and the flag is cleared. *)
Theorem route_error_is_displayed :
  forall (s : State) (now : Z) (net : Network number) (w : World)
         (r : FetchResponse number) (text : jsstring),
    blank (prompt s) = false ->
    net (api_route_call s) = Normal r ->
    ~ (200 <= resp_status r < 300)%Z ->
    resp_json r = Normal (Gateway.error_body text) ->
    handleGenerateClick s now net w =
      (Normal tt,
       mkWorld (failed s (if string_truthy text then text
                          else str "API request failed: " ++ resp_statusText r)
                       (ui w))
               (requests w ++ [api_route_call s])).
Proof.
  intros s now net w r text Hb Hnet Hstatus Hjson.
  assert (Hok : resp_ok r = false)
    by (destruct (resp_ok r) eqn:H; [apply resp_ok_range in H; contradiction|reflexivity]).
  set (msg := if string_truthy text then text
              else str "API request failed: " ++ resp_statusText r).
  assert (Hmsg : displayed_message (new_Error msg) = msg).
  { unfold displayed_message, msg. simpl.
    destruct text; [|reflexivity].
    cbn [string_truthy]. reflexivity. }
  rewrite <- Hmsg. apply (click_failure s now net w (new_Error msg) Hb).
  unfold generate, bind, fetch, await, throw. rewrite Hnet, Hjson, Hok.
  cbn [negb]. unfold Gateway.error_body.
  replace (get (JObj [(str "error", JStr text)]) (str "error"))
    with (Normal (JStr text : value)) by reflexivity.
  unfold js_or. cbn [truthy]. unfold msg.
  destruct (string_truthy text); reflexivity.
Qed.

(** X9. When the request does not get through, or the reply is not JSON
    (whatever its status), the page displays the exception's message, or
    "An unexpected error occurred during image generation." when it has
    none; the one request was sent, and no image is displayed. *)
Theorem transport_failure_is_displayed :
  forall (s : State) (now : Z) (net : Network number) (w : World) (e : JsError),
    blank (prompt s) = false ->
    (net (api_route_call s) = Throw e \/
     exists r, net (api_route_call s) = Normal r /\ resp_json r = Throw e) ->
    handleGenerateClick s now net w =
      (Normal tt,
       mkWorld (failed s (displayed_message e) (ui w))
               (requests w ++ [api_route_call s])).
Proof.
  intros s now net w e Hb H. apply (click_failure s now net w e Hb).
  unfold generate, bind, fetch, await.
  destruct H as [Hnet|(r & Hnet & Hjson)].
  - rewrite Hnet. reflexivity.
  - rewrite Hnet, Hjson. reflexivity.
Qed.

Lemma click_keeps_well_formed (s : State) (now : Z) (net : Network number)
    (w : World) :
  well_formed (ui w) ->
  well_formed (ui (snd (handleGenerateClick s now net w))).
Proof.
  intros (Hgood & Hlen & Himg).
  destruct (click_cases s now net w)
    as [[Hb H]|[(Hb & url & Ha & H)|(Hb & _ & e & _ & H)]]; rewrite H;
    cbn [snd ui]; unfold well_formed.
  - cbn. repeat split; assumption.
  - cbn [generationHistory generatedImageUrl]. split; [|split].
    + constructor.
      * destruct Ha as (r & data & _ & _ & _ & _ & Ht). split; assumption.
      * unfold slice0. apply Forall_first. exact Hgood.
    + unfold slice0. cbn [List.length]. rewrite length_firstn. lia.
    + intros u Hu. inversion Hu; subst u.
      destruct Ha as (r & data & _ & _ & _ & _ & Ht). exact Ht.
  - cbn. repeat split; try assumption. intros u Hu. discriminate Hu.
Qed.

(** X10. The handler keeps the state well formed: if the history has at
    most ten entries, each with an image that is there and a prompt that is
    not blank, and the displayed image is there when it is not [null], the
    same holds after any click, whatever the network does. *)
Theorem click_keeps_state_well_formed :
  forall (s : State) (now : Z) (net : Network number) (w : World),
    well_formed (ui w) ->
    well_formed (ui (snd (handleGenerateClick s now net w))).
Proof.
  intros s now net w H. apply click_keeps_well_formed. exact H.
Qed.

(** X11. A click never changes what the user entered: prompt, negative
    prompt, resolution, steps and guidance scale are after the click what
    they were before, on every path. *)
Theorem click_keeps_the_inputs :
  forall (s : State) (now : Z) (net : Network number) (w : World),
    same_inputs (ui w) (ui (snd (handleGenerateClick s now net w))).
Proof.
  intros s now net w.
  destruct (click_cases s now net w)
    as [[Hb H]|[(Hb & url & Ha & H)|(Hb & _ & e & _ & H)]]; rewrite H;
    unfold same_inputs; cbn; repeat split; reflexivity.
Qed.

(** X12. A click sends no request when the prompt is blank and exactly one
    otherwise, whatever the outcome: a POST to "/api/generate-friendli" of
    the payload's JSON text, declared as "application/json". *)
Theorem click_sends_one_request :
  forall (s : State) (now : Z) (net : Network number) (w : World),
    requests (snd (handleGenerateClick s now net w)) =
      requests w ++ (if blank (prompt s) then [] else [api_route_call s])
    /\
    call_url (api_route_call s) = str "/api/generate-friendli" /\
    call_method (api_route_call s) = str "POST" /\
    call_headers (api_route_call s) = [ (str "Content-Type", str "application/json") ] /\
    call_body (api_route_call s) = JSON_stringify (payloadForApiRoute s).
Proof.
  intros s now net w. split; [|repeat split; reflexivity].
  destruct (click_cases s now net w)
    as [[Hb H]|[(Hb & url & Ha & H)|(Hb & _ & e & _ & H)]]; rewrite H, Hb;
    cbn [snd requests]; [rewrite app_nil_r|..]; reflexivity.
Qed.

(** X13. A generation that does not succeed ends with the three updates of
    its [catch] and [finally] blocks: a message that is not empty, no image
    on display, and the flag cleared. *)
Theorem failed_generation_clears_the_image :
  forall (s : State) (now : Z) (net : Network number) (w : World),
    blank (prompt s) = false ->
    (~ exists url, generation_succeeds s net url) ->
    let after := ui (snd (handleGenerateClick s now net w)) in
    (exists message, error after = Some message /\ message <> []) /\
    generatedImageUrl after = None /\
    isLoading after = false.
Proof.
  intros s now net w Hb Hno after. subst after.
  destruct (click_cases s now net w)
    as [[Hb' H]|[(_ & url & Ha & H)|(_ & _ & e & _ & H)]].
  - congruence.
  - exfalso. apply Hno. exists url. split; assumption.
  - rewrite H. cbn. split; [|repeat split; reflexivity].
    exists (displayed_message e). split; [reflexivity|].
    apply displayed_message_nonempty.
Qed.

(** X14. In the state a generation leaves, the conditions the JSX puts on
    the footer with Copy and Download follow the outcome: after a
    generation that succeeds with a URL that is a string, the footer's
    guard holds and neither button's [disabled] condition does; after one
    that does not succeed, the footer's guard fails. *)
Theorem buttons_follow_the_outcome :
  forall (s : State) (now : Z) (net : Network number) (w : World),
    blank (prompt s) = false ->
    let after := ui (snd (handleGenerateClick s now net w)) in
    (forall url, generation_succeeds s net (JStr url) ->
       footer_guard after = true /\
       copy_disabled after = false /\
       download_disabled after = false)
    /\
    ((~ exists url, generation_succeeds s net url) -> footer_guard after = false).
Proof.
  intros s now net w Hb after. subst after. split.
  - intros url [_ Ha]. rewrite (click_success s now net w (JStr url) Hb Ha).
    unfold footer_guard, copy_disabled, download_disabled, no_image, absent_string.
    cbn [snd ui generatedImageUrl isLoading lastGeneratedPrompt].
    destruct Ha as (r & data & _ & _ & _ & _ & Ht). rewrite Ht.
    rewrite (not_blank_nonempty _ Hb). repeat split; reflexivity.
  - intro Hno.
    destruct (click_cases s now net w)
      as [[Hb' H]|[(_ & url & Ha & H)|(_ & _ & e & _ & H)]].
    + congruence.
    + exfalso. apply Hno. exists url. split; assumption.
    + rewrite H. reflexivity.
Qed.

(** X15. [getResolutionDimensions] reads the text before the first "x" as
    the width and the text up to the next "x" as the height.  For a string
    of the form AxB it gives the numbers of A and B; for a string without
    "x" the width is the number of the whole string and the height is
    [undefined]. *)
Theorem resolution_is_split_at_x :
  forall a b : jsstring,
    ~ In 120%N a ->
    (~ In 120%N b ->
     getResolutionDimensions (a ++ 120%N :: b) =
       (JNum (Number_of_string a), JNum (Number_of_string b)))
    /\
    getResolutionDimensions a = (JNum (Number_of_string a), JUndefined).
Proof.
  intros a b Ha. unfold getResolutionDimensions. split.
  - intro Hb. rewrite (split_on_first _ _ _ Ha), (split_on_whole _ _ Hb).
    reflexivity.
  - rewrite (split_on_whole _ _ Ha). reflexivity.
Qed.

End Page.
End ComposerExtras.

(* ================================================================== *)
(** ** Properties of the style presets *)
(* ================================================================== *)

Module StyleProofs.
Import Js JsFacts Composer Spec Page PageSpec StringFacts ComposerProofs.

Lemma includes_nil (s : jsstring) : includes s [] = true.
Proof. destruct s; reflexivity. Qed.

Lemma includes_app_left (a b p : jsstring) :
  includes a p = true -> includes (a ++ b) p = true.
Proof.
  intro H. apply includes_occurs in H. destruct H as (x & y & Ha).
  apply includes_occurs. exists x, (y ++ b). subst a.
  rewrite <- !app_assoc. reflexivity.
Qed.

Lemma includes_app_right (a p : jsstring) : includes (a ++ p) p = true.
Proof.
  apply includes_occurs. exists a, []. rewrite app_nil_r. reflexivity.
Qed.

Lemma strip_length (s : jsstring) :
  List.length (strip_trailing_comma s) <= List.length s.
Proof.
  induction s as [|c s IH]; simpl; [lia|].
  destruct ((c =? 44)%N && forallb is_whitespace s); simpl; lia.
Qed.

(** The comma the pattern removes has only white space behind it, so
    nothing up to a code unit that is neither is touched. *)
Lemma strip_keeps (u b : jsstring) (l : N) :
  is_whitespace l = false ->
  l <> 44%N ->
  strip_trailing_comma (u ++ l :: b) = u ++ l :: strip_trailing_comma b.
Proof.
  intros Hl Hcomma. induction u as [|x u IH]; simpl.
  - apply N.eqb_neq in Hcomma. rewrite Hcomma. reflexivity.
  - rewrite forallb_app. simpl. rewrite Hl. simpl.
    rewrite andb_false_r, andb_false_r. rewrite IH. reflexivity.
Qed.

(** A shaped suffix that is not empty: its first and last code units. *)
Lemma suffix_ends (suffix : jsstring) :
  suffix_shaped suffix = true ->
  suffix = [] \/
  exists c t q l,
    suffix = c :: t /\ suffix = q ++ [l] /\
    is_whitespace c = false /\ is_whitespace l = false /\ l <> 44%N.
Proof.
  destruct suffix as [|c t]; [left; reflexivity|]. intro H. right.
  unfold suffix_shaped in H.
  apply andb_true_iff in H. destruct H as [H Hcomma].
  apply andb_true_iff in H. destruct H as [Hc Hl].
  assert (Hne : c :: t <> []) by discriminate.
  destruct (exists_last Hne) as (q & l & Hq).
  assert (Hlast : last (c :: t) 0%N = l) by (rewrite Hq; apply last_last).
  rewrite Hlast in *.
  exists c, t, q, l. repeat split; try assumption.
  - destruct (is_whitespace c); [discriminate|reflexivity].
  - destruct (is_whitespace l); [discriminate|reflexivity].
  - apply N.eqb_neq. destruct (l =? 44)%N; [discriminate|reflexivity].
Qed.

(** Cleaning a prompt does not remove a shaped suffix from it. *)
Lemma cleaning_keeps_suffix (suffix s : jsstring) :
  suffix_shaped suffix = true ->
  includes s suffix = true ->
  includes (strip_trailing_comma (trim s)) suffix = true.
Proof.
  intros Hshape H.
  destruct (suffix_ends suffix Hshape) as [Hnil|(c & t & q & l & Hc & Hq & Wc & Wl & Hl)].
  - subst suffix. apply includes_nil.
  - apply includes_occurs in H. destruct H as (a & b & Hs). subst s.
    destruct (trim_keeps a suffix b t q c l Hc Hq Wc Wl) as (a' & b' & Ht).
    rewrite Ht. apply includes_occurs.
    exists a', (strip_trailing_comma b').
    rewrite Hq. rewrite <- !app_assoc. simpl.
    rewrite (app_assoc a' q). rewrite (strip_keeps _ _ _ Wl Hl).
    rewrite <- app_assoc. reflexivity.
Qed.

(** The styled prompt holds the suffix. *)
Lemma styled_prompt_includes (suffix p : jsstring) :
  includes (styled_prompt suffix p) suffix = true.
Proof.
  unfold styled_prompt.
  destruct (includes (strip_trailing_comma (trim p)) suffix) eqn:H.
  - exact H.
  - apply includes_app_right.
Qed.

(** The styled negative prompt begins with the prefix. *)
Lemma styled_negative_starts (prefix n : jsstring) :
  starts_with prefix (styled_negative prefix n) = true.
Proof.
  unfold styled_negative.
  destruct (jsstring_eqb (trim n) []).
  - rewrite <- (app_nil_r prefix) at 2. apply starts_with_app.
  - destruct (starts_with prefix n) eqn:Hs; simpl.
    + destruct (string_truthy prefix); [exact Hs|apply starts_with_app].
    + apply starts_with_app.
Qed.

Lemma trim_empty_blank (s : jsstring) : jsstring_eqb (trim s) [] = blank s.
Proof.
  destruct (blank s) eqn:Hb.
  - apply trim_blank in Hb. rewrite Hb. reflexivity.
  - apply jsstring_eqb_neq. intro H. apply trim_blank in H. congruence.
Qed.

Lemma restyled_negative (prefix n : jsstring) :
  prefix_shaped prefix = true ->
  styled_negative prefix (styled_negative prefix n) = styled_negative prefix n.
Proof.
  intro Hshape.
  pose proof (styled_negative_starts prefix n) as Hstarts.
  set (r := styled_negative prefix n) in *.
  destruct prefix as [|c prefix].
  - (* no prefix: the updater gives back a prompt that is not blank *)
    assert (Hr : r = if blank n then [] else n).
    { unfold r, styled_negative. rewrite trim_empty_blank.
      destruct (blank n); reflexivity. }
    unfold styled_negative at 1. rewrite trim_empty_blank, Hr.
    destruct (blank n) eqn:Hb; [reflexivity|]. rewrite Hb. reflexivity.
  - unfold prefix_shaped in Hshape. cbn [string_truthy negb orb] in Hshape.
    apply negb_true_iff in Hshape.
    destruct (starts_with_split _ _ Hstarts) as [b Hb].
    assert (Hblank : blank r = false).
    { rewrite Hb. unfold blank. rewrite forallb_app.
      fold (blank (c :: prefix)). rewrite Hshape. reflexivity. }
    unfold styled_negative at 1. rewrite trim_empty_blank, Hblank, Hstarts.
    reflexivity.
Qed.

Lemma restyled_prompt (suffix p : jsstring) :
  suffix_shaped suffix = true ->
  styled_prompt suffix (styled_prompt suffix p) =
    strip_trailing_comma (trim (styled_prompt suffix p)).
Proof.
  intro Hshape. unfold styled_prompt at 1.
  rewrite (cleaning_keeps_suffix suffix _ Hshape (styled_prompt_includes suffix p)).
  reflexivity.
Qed.

(** Every row of the table is shaped. *)
Lemma style_keywords_shaped (preset : jsstring) :
  suffix_shaped (fst (style_keywords preset)) = true /\
  prefix_shaped (snd (style_keywords preset)) = true.
Proof.
  unfold style_keywords.
  repeat match goal with
         | |- context [jsstring_eqb preset ?k] => destruct (jsstring_eqb preset k)
         end; split; vm_compute; reflexivity.
Qed.

Section Handlers.
Context {E : Engine}.

Lemma applied_prompt (preset : jsstring) (sc : Screen) :
  prompt (state (applyStylePreset preset sc)) =
    if jsstring_eqb preset (str "none") then prompt (state sc)
    else styled_prompt (fst (style_keywords preset)) (prompt (state sc)).
Proof.
  unfold applyStylePreset. destruct (style_keywords preset) as [suffix prefix].
  destruct (jsstring_eqb preset (str "none")); reflexivity.
Qed.

Lemma applied_negative (preset : jsstring) (sc : Screen) :
  negativePrompt (state (applyStylePreset preset sc)) =
    if jsstring_eqb preset (str "none") then negativePrompt (state sc)
    else styled_negative (snd (style_keywords preset)) (negativePrompt (state sc)).
Proof.
  unfold applyStylePreset. destruct (style_keywords preset) as [suffix prefix].
  destruct (jsstring_eqb preset (str "none")); reflexivity.
Qed.

Lemma none_has_no_keywords (preset : jsstring) :
  jsstring_eqb preset (str "none") = true -> style_keywords preset = ([], []).
Proof.
  unfold jsstring_eqb. destruct (list_eq_dec N.eq_dec preset (str "none")) as [H|H];
    [|discriminate]. intros _. subst preset. reflexivity.
Qed.

(** X16. After a preset is applied, the prompt contains the preset's
    keywords and the negative prompt begins with the preset's negative
    keywords, whatever the two were before. *)
Theorem preset_keywords_are_applied :
  forall (preset : jsstring) (sc : Screen),
    includes (prompt (state (applyStylePreset preset sc)))
             (fst (style_keywords preset)) = true /\
    starts_with (snd (style_keywords preset))
                (negativePrompt (state (applyStylePreset preset sc))) = true.
Proof.
  intros preset sc. rewrite applied_prompt, applied_negative.
  destruct (jsstring_eqb preset (str "none")) eqn:Hn.
  - rewrite (none_has_no_keywords _ Hn). split; [apply includes_nil|reflexivity].
  - split; [apply styled_prompt_includes|apply styled_negative_starts].
Qed.

(** X17. Applying the same preset a second time adds nothing: the negative
    prompt stays as the first application left it, and the prompt is only
    cleaned again (trimmed, a trailing comma removed), so it does not get
    longer and the keywords are not repeated. *)
Theorem preset_is_not_applied_twice :
  forall (preset : jsstring) (sc : Screen),
    let once := state (applyStylePreset preset sc) in
    let twice := state (applyStylePreset preset (applyStylePreset preset sc)) in
    negativePrompt twice = negativePrompt once /\
    (prompt twice = prompt once \/
     prompt twice = strip_trailing_comma (trim (prompt once))) /\
    List.length (prompt twice) <= List.length (prompt once).
Proof.
  intros preset sc once twice. subst once twice.
  destruct (style_keywords_shaped preset) as [Hs Hp].
  rewrite (applied_negative preset (applyStylePreset preset sc)).
  rewrite (applied_prompt preset (applyStylePreset preset sc)).
  rewrite (applied_negative preset sc), (applied_prompt preset sc).
  destruct (jsstring_eqb preset (str "none")).
  - split; [reflexivity|]. split; [left; reflexivity|lia].
  - rewrite (restyled_negative _ _ Hp), (restyled_prompt _ _ Hs).
    split; [reflexivity|]. split; [right; reflexivity|].
    etransitivity; [apply strip_length|apply trim_length].
Qed.

(** X18. Changing the style does not take the previous style's keywords
    out of the prompt: whatever keywords of the table the prompt contains,
    it still contains after another preset is applied. *)
Theorem earlier_keywords_stay :
  forall (earlier preset : jsstring) (sc : Screen),
    includes (prompt (state sc)) (fst (style_keywords earlier)) = true ->
    includes (prompt (state (applyStylePreset preset sc)))
             (fst (style_keywords earlier)) = true.
Proof.
  intros earlier preset sc H. rewrite applied_prompt.
  destruct (jsstring_eqb preset (str "none")); [exact H|].
  destruct (style_keywords_shaped earlier) as [Hs _].
  pose proof (cleaning_keeps_suffix _ _ Hs H) as Hclean.
  unfold styled_prompt.
  destruct (includes (strip_trailing_comma (trim (prompt (state sc))))
                     (fst (style_keywords preset))).
  - exact Hclean.
  - apply includes_app_left. exact Hclean.
Qed.

End Handlers.
End StyleProofs.

(* ================================================================== *)
(** ** Properties of the history, the download and the copy handlers *)
(* ================================================================== *)

Module PageProofs.
Import Js JsFacts Composer Spec Page PageSpec StringFacts ComposerProofs.
Import ComposerExtras.
Local Open Scope js_scope.

(** *** The download name *)

Lemma is_safe_unit_spec (y : N) :
  is_safe_unit y = true <-> (48 <= y <= 57 \/ 97 <= y <= 122 \/ y = 95)%N.
Proof.
  unfold is_safe_unit.
  rewrite !orb_true_iff, !andb_true_iff, !N.leb_le, N.eqb_eq. tauto.
Qed.

Lemma is_alnum_spec (c : N) :
  is_alnum c = true <-> (48 <= c <= 57 \/ 65 <= c <= 90 \/ 97 <= c <= 122)%N.
Proof.
  unfold is_alnum. rewrite !orb_true_iff, !andb_true_iff, !N.leb_le. tauto.
Qed.

(** What the replacement and the lowering make of one code unit. *)
Lemma sanitized_unit_is_safe (c : N) :
  is_safe_unit
    ((fun c => if ((65 <=? c) && (c <=? 90))%N then (c + 32)%N else c)
       (if is_alnum c then c else 95%N)) = true.
Proof.
  cbv beta. apply is_safe_unit_spec. destruct (is_alnum c) eqn:Ha.
  - apply is_alnum_spec in Ha.
    destruct ((65 <=? c) && (c <=? 90))%N eqn:Hu.
    + apply andb_true_iff in Hu. rewrite !N.leb_le in Hu. lia.
    + apply andb_false_iff in Hu. rewrite !N.leb_gt in Hu. lia.
  - right. right. reflexivity.
Qed.

(** X19. The prompt part of a download name is made of lowercase ASCII
    letters, digits and underscores only, has at least one and at most
    fifty code units, and is "generated" when there is no prompt of record
    or it is empty. *)
Theorem download_name_part_is_safe :
  forall lastGeneratedPrompt : option jsstring,
    forallb is_safe_unit (safePromptPart lastGeneratedPrompt) = true /\
    1 <= List.length (safePromptPart lastGeneratedPrompt) <= 50 /\
    (Page.absent_string lastGeneratedPrompt = true ->
     safePromptPart lastGeneratedPrompt = str "generated").
Proof.
  intros [p|]; [|repeat split; (reflexivity || (vm_compute; lia) || discriminate)].
  - unfold safePromptPart, toLowerCase_ascii, replace_non_alnum, substring0.
    rewrite map_map.
    destruct (string_truthy (map _ (firstn 50 p))) eqn:Hne.
    + split; [|split].
      * apply forallb_forall. intros x Hx. apply in_map_iff in Hx.
        destruct Hx as (c & Hc & _). subst x. apply sanitized_unit_is_safe.
      * assert (Hlen : List.length (firstn 50 p) <> 0)
          by (destruct (firstn 50 p); [discriminate Hne|discriminate]).
        rewrite length_map. rewrite length_firstn in *. lia.
      * intro H. simpl in H. destruct p as [|c p]; [discriminate Hne|discriminate H].
    + split; [reflexivity|]. split; [vm_compute; lia|]. reflexivity.
Qed.

(** X20. The extension of a download name is never empty and never holds a
    slash: it is the text between the first and the second slash of the
    blob's type, and "png" when that is missing or empty. *)
Theorem download_extension_is_never_empty :
  forall blob_type : jsstring,
    fileExtension blob_type <> [] /\
    ~ In 47%N (fileExtension blob_type) /\
    (forall a b, ~ In 47%N a -> ~ In 47%N b -> b <> [] ->
       fileExtension (a ++ 47%N :: b) = b) /\
    (~ In 47%N blob_type -> fileExtension blob_type = str "png").
Proof.
  intro t. split; [|split; [|split]].
  - unfold fileExtension. destruct (nth_error (split_on 47 t) 1) as [[|c r]|];
      discriminate.
  - unfold fileExtension.
    destruct (nth_error (split_on 47 t) 1) as [[|c r]|] eqn:Hn;
      try (vm_compute; intuition discriminate).
    pose proof (split_on_parts 47 t) as Hparts. rewrite Forall_forall in Hparts.
    apply Hparts. apply (nth_error_In _ _ Hn).
  - intros a b Ha Hb Hne. unfold fileExtension.
    rewrite (split_on_first _ _ _ Ha), (split_on_whole _ _ Hb). simpl.
    destruct b; [contradiction|reflexivity].
  - intro Ht. unfold fileExtension. rewrite (split_on_whole _ _ Ht). reflexivity.
Qed.

Section Handlers.
Context {E : Engine}.

(** *** Loading from the history *)

(** X21. Loading the newest entry right after a successful generation gives
    the state the generation left, with the prompt box holding the prompt
    that produced the image: the image, the prompt of record, the history
    and the flags are untouched. *)
Theorem newest_entry_reloads_the_result :
  forall (s : State) (now : Z) (net : Network number) (w : World) (v : View)
         (url : value),
    generation_succeeds s net url ->
    let after := ui (snd (handleGenerateClick s now net w)) in
    exists newest rest,
      generationHistory after = newest :: rest /\
      state (loadFromHistory newest (mkScreen after v)) = with_prompt (prompt s) after.
Proof.
  intros s now net w v url [Hb Ha] after. subst after.
  rewrite (click_success s now net w url Hb Ha). cbn [snd ui].
  eexists. eexists. split; [reflexivity|]. reflexivity.
Qed.

Lemma loaded_entry_well_formed (sc : Screen) (h : HistoryEntry) :
  well_formed (state sc) ->
  In h (generationHistory (state sc)) ->
  well_formed (state (loadFromHistory h sc)).
Proof.
  intros (Hgood & Hlen & Himg) Hin.
  rewrite Forall_forall in Hgood. destruct (Hgood h Hin) as [Hurl Hprompt].
  unfold loadFromHistory, well_formed. cbn.
  split; [apply Forall_forall; exact Hgood|].
  split; [exact Hlen|]. intros u Hu. inversion Hu; subst u. exact Hurl.
Qed.

(** X22. Loading any entry of a well-formed history leaves a well-formed
    state in which the result can be used at once: Copy is enabled, and
    Generate and Download are disabled only while something is loading.
    The history itself is not changed. *)
Theorem history_entry_can_be_used :
  forall (sc : Screen) (h : HistoryEntry),
    well_formed (state sc) ->
    In h (generationHistory (state sc)) ->
    let after := state (loadFromHistory h sc) in
    well_formed after /\
    generationHistory after = generationHistory (state sc) /\
    copy_disabled after = false /\
    generate_disabled after = isLoading (state sc) /\
    download_disabled after = isLoading (state sc).
Proof.
  intros sc h Hwf Hin after. subst after.
  split; [exact (loaded_entry_well_formed sc h Hwf Hin)|].
  destruct Hwf as (Hgood & Hlen & Himg).
  rewrite Forall_forall in Hgood. destruct (Hgood h Hin) as [Hurl Hprompt].
  unfold loadFromHistory. cbn [state].
  split; [|split; [|split]].
  - reflexivity.
  - unfold copy_disabled, absent_string. cbn.
    rewrite (not_blank_nonempty _ Hprompt). reflexivity.
  - unfold generate_disabled. cbn [prompt isLoading with_error
      with_lastGeneratedPrompt with_generatedImageUrl with_prompt].
    rewrite guard_blank, Hprompt. apply orb_false_r.
  - unfold download_disabled, no_image. cbn. rewrite Hurl. reflexivity.
Qed.

(** *** Downloading *)

(** The handler past its guard. *)
Lemma download_runs (s : State) (now : Z) (net : ImageNetwork) (blobUrl : jsstring)
    (b : Browser) (image : value) :
  generatedImageUrl s = Some image ->
  truthy image = true ->
  handleDownloadImage s now net blobUrl b =
    try_finally
      (try_catch (download s image now net blobUrl)
         (fun downloadError =>
            on_page (with_error (Some (str "Download failed: "
                                       ++ err_message downloadError)))))
      (on_page (with_isLoading false))
      (mkBrowser
         (with_error None
            (with_isLoading true
               (with_currentBlobUrl
                  (if blob_url_set (currentBlobUrl s) then None
                   else currentBlobUrl (page b))
                  (page b))))
         (fetched b) (revoked b ++ old_blob s) (saved b)).
Proof.
  intros Himg Ht. unfold handleDownloadImage. rewrite Himg, Ht. cbn [negb].
  unfold old_blob, blob_url_set. destruct b as [pg f r sv].
  destruct (currentBlobUrl s) as [old|].
  - destruct (string_truthy old).
    + reflexivity.
    + cbn. rewrite app_nil_r. destruct pg; reflexivity.
  - cbn. rewrite app_nil_r. destruct pg; reflexivity.
Qed.

(** The two ways a download past the guard ends. *)
Lemma download_cases (s : State) (now : Z) (net : ImageNetwork) (blobUrl : jsstring)
    (b : Browser) (image : value) :
  generatedImageUrl s = Some image ->
  truthy image = true ->
  (exists url blob_type,
     image_arrives s net url blob_type /\
     handleDownloadImage s now net blobUrl b =
       (Normal tt, download_done s now url blob_type blobUrl b))
  \/
  ((~ exists url blob_type, image_arrives s net url blob_type) /\
   exists message urls,
     List.length urls <= 1 /\
     handleDownloadImage s now net blobUrl b =
       (Normal tt, download_failed s message urls b)).
Proof.
  intros Himg Ht. rewrite (download_runs s now net blobUrl b image Himg Ht).
  unfold try_finally, try_catch, download, bind, await, fetch_image, throw.
  destruct (ToString image) as [url|e] eqn:Hurl.
  2:{ right. split.
      - intros (u & t & (i & r & Hi & _ & Hs & _)). congruence.
      - exists (err_message e), []. split; [simpl; lia|].
        unfold download_failed. rewrite app_nil_r. reflexivity. }
  cbn [fetched page revoked saved].
  destruct (net url) as [r|e] eqn:Hnet.
  2:{ right. split.
      - intros (u & t & (i & r & Hi & _ & Hs & Hn & _)). congruence.
      - exists (err_message e), [url]. split; [simpl; lia|]. reflexivity. }
  destruct (img_ok r) eqn:Hok; cbn [negb].
  2:{ right. split.
      - intros (u & t & (i & r' & Hi & _ & Hs & Hn & Ho & _)). congruence.
      - eexists. exists [url]. split; [simpl; lia|]. reflexivity. }
  destruct (img_blob r) as [blob_type|e] eqn:Hblob.
  2:{ right. split.
      - intros (u & t & (i & r' & Hi & _ & Hs & Hn & _ & Hb)). congruence.
      - exists (err_message e), [url]. split; [simpl; lia|]. reflexivity. }
  left. exists url, blob_type. split.
  - exists image, r. tauto.
  - reflexivity.
Qed.

(** What the download handler leaves alone, on every path. *)
Lemma contained_download :
  forall (s : State) (now : Z) (net : ImageNetwork) (blobUrl : jsstring)
         (b : Browser),
    let out := handleDownloadImage s now net blobUrl b in
    fst out = Normal tt /\
    same_inputs (page b) (page (snd out)) /\
    same_result (page b) (page (snd out)) /\
    List.length (fetched (snd out)) <= List.length (fetched b) + 1 /\
    (no_image s = true -> snd out = b) /\
    (no_image s = false -> isLoading (page (snd out)) = false).
Proof.
  intros s now net blobUrl b out. subst out. unfold no_image.
  destruct (generatedImageUrl s) as [image|] eqn:Himg.
  - destruct (truthy image) eqn:Ht.
    + destruct (download_cases s now net blobUrl b image Himg Ht)
        as [(url & blob_type & _ & H)|(_ & message & urls & Hlen & H)];
        rewrite H; cbn [fst snd negb];
        unfold same_inputs, same_result, download_done, download_failed; cbn;
        repeat split; try reflexivity; try discriminate;
        rewrite length_app; simpl; lia.
    + unfold handleDownloadImage. rewrite Himg, Ht. cbn.
      unfold same_inputs, same_result.
      repeat split; try reflexivity; try discriminate; lia.
  - unfold handleDownloadImage. rewrite Himg. cbn.
    unfold same_inputs, same_result.
    repeat split; try reflexivity; try discriminate; lia.
Qed.

(** X23. The download handler is contained: it always returns, never
    changes what the user entered nor the result on display (image, prompt
    of record, history), fetches at most one URL, does nothing at all when
    no image is displayed, and otherwise ends with the loading flag
    cleared. *)
Theorem download_is_contained :
  forall (s : State) (now : Z) (net : ImageNetwork) (blobUrl : jsstring)
         (b : Browser),
    let out := handleDownloadImage s now net blobUrl b in
    fst out = Normal tt /\
    same_inputs (page b) (page (snd out)) /\
    same_result (page b) (page (snd out)) /\
    List.length (fetched (snd out)) <= List.length (fetched b) + 1 /\
    (no_image s = true -> snd out = b) /\
    (no_image s = false -> isLoading (page (snd out)) = false).
Proof.
  intros s now net blobUrl b. exact (contained_download s now net blobUrl b).
Qed.

(** X24. When fetching the image answers outside the 2xx range, the page
    displays "Download failed: Failed to fetch image (<status>
    <statusText>)"; no link is clicked and no new blob URL is kept.  More
    generally a download that does not go through clicks no link and leaves
    a message that begins with "Download failed: ". *)
Theorem failed_download_is_reported :
  forall (s : State) (now : Z) (net : ImageNetwork) (blobUrl : jsstring)
         (b : Browser) (image : value),
    generatedImageUrl s = Some image ->
    truthy image = true ->
    let after := snd (handleDownloadImage s now net blobUrl b) in
    (forall url r,
       ToString image = Normal url ->
       net url = Normal r ->
       ~ (200 <= img_status r < 300)%Z ->
       after =
         download_failed s
           (str "Failed to fetch image (" ++ integer_to_string (img_status r)
            ++ str " " ++ img_statusText r ++ str ")")
           [url] b)
    /\
    ((~ exists url blob_type, image_arrives s net url blob_type) ->
     saved after = saved b /\
     exists message,
       error (page after) = Some (str "Download failed: " ++ message)).
Proof.
  intros s now net blobUrl b image Himg Ht after. subst after. split.
  - intros url r Hurl Hnet Hstatus.
    assert (Hok : img_ok r = false).
    { unfold img_ok. destruct (Z.leb_spec 200 (img_status r));
        destruct (Z.leb_spec (img_status r) 299); simpl; try reflexivity; lia. }
    rewrite (download_runs s now net blobUrl b image Himg Ht).
    unfold try_finally, try_catch, download, bind, await, fetch_image, throw.
    rewrite Hurl. cbn [fetched page revoked saved]. rewrite Hnet, Hok.
    reflexivity.
  - intro Hno.
    destruct (download_cases s now net blobUrl b image Himg Ht)
      as [(url & blob_type & Ha & _)|(_ & message & urls & _ & H)].
    + exfalso. apply Hno. exists url, blob_type. exact Ha.
    + rewrite H. split; [reflexivity|]. exists message. reflexivity.
Qed.

(** X25. A download that goes through fetches the displayed image once,
    keeps the new blob URL, and clicks exactly one link: its target is the
    blob URL and its name is the safe prompt part, an underscore, the time
    in milliseconds, a dot and the extension.  The blob URL held before is
    revoked first. *)
Theorem download_saves_one_file :
  forall (s : State) (now : Z) (net : ImageNetwork) (blobUrl : jsstring)
         (b : Browser) (url blob_type : jsstring),
    image_arrives s net url blob_type ->
    handleDownloadImage s now net blobUrl b =
      (Normal tt, download_done s now url blob_type blobUrl b)
    /\
    saved (download_done s now url blob_type blobUrl b) =
      saved b ++ [ (blobUrl,
                    safePromptPart (lastGeneratedPrompt s) ++ str "_"
                    ++ integer_to_string now ++ str "."
                    ++ fileExtension blob_type) ]
    /\
    currentBlobUrl (page (download_done s now url blob_type blobUrl b)) = Some blobUrl
    /\
    error (page (download_done s now url blob_type blobUrl b)) = None.
Proof.
  intros s now net blobUrl b url blob_type Ha.
  split; [|repeat split; reflexivity].
  destruct Ha as (image & r & Himg & Ht & Hurl & Hnet & Hok & Hblob).
  rewrite (download_runs s now net blobUrl b image Himg Ht).
  unfold try_finally, try_catch, download, bind, await, fetch_image, throw.
  rewrite Hurl. cbn [fetched page revoked saved]. rewrite Hnet, Hok.
  cbn [negb]. rewrite Hblob. reflexivity.
Qed.

(** *** Copying *)

(** X26. After a successful generation, Copy puts on the clipboard the
    prompt that produced the image, marks the prompt as copied and sets one
    timer of two seconds, whose firing takes the mark off again.  When the
    clipboard refuses, nothing is written, nothing is marked, no timer is
    set, and the page displays "Could not copy prompt.". *)
Theorem copy_writes_the_prompt_of_record :
  forall (s : State) (now : Z) (net : Network number) (w : World) (url : value)
         (writeText : jsstring -> completion unit) (d : Desk),
    generation_succeeds s net url ->
    let after := ui (snd (handleGenerateClick s now net w)) in
    (writeText (prompt s) = Normal tt ->
     handleCopyPrompt after (Some writeText) d =
       (Normal tt,
        mkDesk (setIsCopied true (screen d))
               (clipboard d ++ [prompt s])
               (timers d ++ [(ResetCopied, 2000%Z)]))
     /\
     isCopied (view (screen (snd (run_timer ResetCopied
        (snd (handleCopyPrompt after (Some writeText) d)))))) = false)
    /\
    (forall e, writeText (prompt s) = Throw e ->
     handleCopyPrompt after (Some writeText) d =
       (Normal tt,
        mkDesk (mkScreen (with_error (Some (str "Could not copy prompt."))
                                     (state (screen d)))
                         (view (screen d)))
               (clipboard d) (timers d))).
Proof.
  intros s now net w url writeText d [Hb Ha] after. subst after.
  rewrite (click_success s now net w url Hb Ha). cbn [snd ui].
  unfold handleCopyPrompt. cbn [lastGeneratedPrompt].
  rewrite (not_blank_nonempty _ Hb). cbn [negb].
  unfold try_catch, bind, clipboard_writeText, on_screen, setTimeout, modify.
  split.
  - intro Hw. rewrite Hw. split; reflexivity.
  - intros e Hw. rewrite Hw. reflexivity.
Qed.

End Handlers.
End PageProofs.

(* ================================================================== *)
(** ** The further properties on the sample inputs *)
(* ================================================================== *)

Module MoreExamples.
Import Js JsFacts Gateway Composer Spec Sample Page PageSpec MoreSamples.
Import GatewayProofs GatewayExtras ComposerExtras StyleProofs PageProofs.

Lemma single_outbound_attempt_witness :
  outbound_call sample_env red_cube = Some red_cube_call /\
  exists token endpoint,
    configured (FRIENDLI_API_TOKEN sample_env) = Some token /\
    configured (FRIENDLI_API_ENDPOINT sample_env) = Some endpoint /\
    call_url red_cube_call = endpoint /\
    call_method red_cube_call = str "POST" /\
    In (str "Authorization", str "Bearer " ++ token) (call_headers red_cube_call).
Proof.
  split; [exact red_cube_is_forwarded|].
  exact (proj2 (proj2 (single_outbound_attempt sample_env (Normal red_cube)
                         (always image_ready) []))
           red_cube red_cube_call red_cube_is_forwarded).
Defined.




Lemma json_content_type_is_a_substring_test_witness :
  (exists a b,
     Some (str "application/json; charset=utf-8")
       = Some (a ++ str "application/json" ++ b)) /\
  is_json_content_type (Some (str "application/json; charset=utf-8")) = true.
Proof.
  assert (H : exists a b,
            Some (str "application/json; charset=utf-8")
              = Some (a ++ str "application/json" ++ b))
    by (exists [], (str "; charset=utf-8"); reflexivity).
  split; [exact H|].
  exact (proj2 (json_content_type_is_a_substring_test
                  (Some (str "application/json; charset=utf-8"))) H).
Defined.

Lemma absent_fields_are_left_out_witness :
  fully_configured sample_env = true /\
  is_nullish (JStr (str "just a string") : value) = false /\
  is_primitive_or_array (JStr (str "just a string") : value) = true /\
  exists id c,
    configured (FRIENDLI_ENDPOINT_ID sample_env) = Some id /\
    snd (POST sample_env (Normal (JStr (str "just a string")))
           (always image_ready) []) = [] ++ [c] /\
    call_body c = JSON_text (JObj [ (str "model", JStr id) ]).
Proof.
  assert (H1 : fully_configured sample_env = true) by reflexivity.
  assert (H2 : is_nullish (JStr (str "just a string") : value) = false)
    by reflexivity.
  assert (H3 : is_primitive_or_array (JStr (str "just a string") : value) = true)
    by reflexivity.
  split; [exact H1|]. split; [exact H2|]. split; [exact H3|].
  destruct (absent_fields_are_left_out sample_env (JStr (str "just a string"))
              (always image_ready) [] H1 H2) as (id & c & Hid & Hlog & _ & Hbody).
  exists id, c. split; [exact Hid|]. split; [exact Hlog|]. exact (Hbody H3).
Defined.

Lemma provider_receives_the_page_fields_witness :
  fully_configured sample_env = true /\
  exists id props c,
    configured (FRIENDLI_ENDPOINT_ID sample_env) = Some id /\
    json_document (payloadForApiRoute fresh_page) = JObj props /\
    snd (POST sample_env (Normal (json_document (payloadForApiRoute fresh_page)))
           (always image_ready) []) = [] ++ [c] /\
    call_body c = JSON_text (JObj ((str "model", JStr id) :: props)).
Proof.
  assert (H : fully_configured sample_env = true) by reflexivity.
  split; [exact H|].
  exact (provider_receives_the_page_fields fresh_page sample_env
           (always image_ready) [] H).
Defined.

Lemma route_error_is_displayed_witness :
  blank (prompt fresh_page) = false /\
  ~ (200 <= resp_status route_refusal < 300)%Z /\
  handleGenerateClick fresh_page 11 (always route_refusal) (mkWorld fresh_page []) =
    (Normal tt,
     mkWorld (failed fresh_page
                (if string_truthy (str "Friendli API Error: rate limited")
                 then str "Friendli API Error: rate limited"
                 else str "API request failed: " ++ resp_statusText route_refusal)
                (ui (mkWorld fresh_page [])))
             (requests (mkWorld fresh_page []) ++ [api_route_call fresh_page])).
Proof.
  assert (H1 : blank (prompt fresh_page) = false) by reflexivity.
  assert (H2 : ~ (200 <= resp_status route_refusal < 300)%Z) by (simpl; lia).
  split; [exact H1|]. split; [exact H2|].
  exact (route_error_is_displayed fresh_page 11 (always route_refusal)
           (mkWorld fresh_page []) route_refusal
           (str "Friendli API Error: rate limited") H1 eq_refl H2 eq_refl).
Defined.

Lemma transport_failure_is_displayed_witness :
  blank (prompt fresh_page) = false /\
  (always not_json (api_route_call fresh_page)
     = Throw (mkError (str "SyntaxError") (str "Unexpected token <")) \/
   exists r, always not_json (api_route_call fresh_page) = Normal r /\
             resp_json r = Throw (mkError (str "SyntaxError") (str "Unexpected token <"))) /\
  handleGenerateClick fresh_page 11 (always not_json) (mkWorld fresh_page []) =
    (Normal tt,
     mkWorld (failed fresh_page
                (displayed_message
                   (mkError (str "SyntaxError") (str "Unexpected token <")))
                (ui (mkWorld fresh_page [])))
             (requests (mkWorld fresh_page []) ++ [api_route_call fresh_page])).
Proof.
  assert (H1 : blank (prompt fresh_page) = false) by reflexivity.
  assert (H2 : always not_json (api_route_call fresh_page)
     = Throw (mkError (str "SyntaxError") (str "Unexpected token <")) \/
   exists r, always not_json (api_route_call fresh_page) = Normal r /\
             resp_json r = Throw (mkError (str "SyntaxError") (str "Unexpected token <")))
    by (right; exists not_json; split; reflexivity).
  split; [exact H1|]. split; [exact H2|].
  exact (transport_failure_is_displayed fresh_page 11 (always not_json)
           (mkWorld fresh_page []) _ H1 H2).
Defined.

Lemma busy_page_is_well_formed : well_formed busy_page.
Proof.
  unfold well_formed. split; [|split].
  - repeat constructor.
  - simpl. lia.
  - intros u Hu. discriminate Hu.
Qed.

Lemma click_keeps_state_well_formed_witness :
  well_formed (ui (mkWorld busy_page [])) /\
  well_formed (ui (snd (handleGenerateClick busy_page 11 (always image_ready)
                          (mkWorld busy_page [])))).
Proof.
  assert (H : well_formed (ui (mkWorld busy_page []))) by exact busy_page_is_well_formed.
  split; [exact H|].
  exact (click_keeps_state_well_formed busy_page 11 (always image_ready)
           (mkWorld busy_page []) H).
Defined.

Lemma fresh_page_fails_offline :
  ~ exists url, generation_succeeds fresh_page unreachable url.
Proof.
  intros [url [_ (r & data & Hnet & _)]]. discriminate Hnet.
Qed.

Lemma fresh_page_succeeds :
  generation_succeeds fresh_page (always image_ready) (JStr (str "https://x/img.png")).
Proof.
  split; [reflexivity|]. exists image_ready, image_body.
  repeat split; reflexivity.
Qed.

Lemma failed_generation_clears_the_image_witness :
  blank (prompt shown_page) = false /\
  (~ exists url, generation_succeeds shown_page unreachable url) /\
  (exists message,
     error (ui (snd (handleGenerateClick shown_page 12 unreachable
                       (mkWorld shown_page [])))) = Some message /\
     message <> []) /\
  generatedImageUrl (ui (snd (handleGenerateClick shown_page 12 unreachable
                                (mkWorld shown_page [])))) = None /\
  isLoading (ui (snd (handleGenerateClick shown_page 12 unreachable
                        (mkWorld shown_page [])))) = false.
Proof.
  assert (H1 : blank (prompt shown_page) = false) by reflexivity.
  assert (H2 : ~ exists url, generation_succeeds shown_page unreachable url).
  { intros [url [_ (r & data & Hnet & _)]]. discriminate Hnet. }
  split; [exact H1|]. split; [exact H2|].
  exact (failed_generation_clears_the_image shown_page 12 unreachable
           (mkWorld shown_page []) H1 H2).
Defined.

Lemma buttons_follow_the_outcome_witness :
  blank (prompt fresh_page) = false /\
  generation_succeeds fresh_page (always image_ready) (JStr (str "https://x/img.png")) /\
  (footer_guard (ui (snd (handleGenerateClick fresh_page 11 (always image_ready)
                            (mkWorld fresh_page [])))) = true /\
   copy_disabled (ui (snd (handleGenerateClick fresh_page 11 (always image_ready)
                             (mkWorld fresh_page [])))) = false /\
   download_disabled (ui (snd (handleGenerateClick fresh_page 11 (always image_ready)
                                 (mkWorld fresh_page [])))) = false) /\
  (~ exists url, generation_succeeds fresh_page unreachable url) /\
  footer_guard (ui (snd (handleGenerateClick fresh_page 11 unreachable
                           (mkWorld fresh_page [])))) = false.
Proof.
  assert (H1 : blank (prompt fresh_page) = false) by reflexivity.
  assert (H2 := fresh_page_succeeds).
  assert (H3 := fresh_page_fails_offline).
  split; [exact H1|]. split; [exact H2|]. split.
  - exact (proj1 (buttons_follow_the_outcome fresh_page 11 (always image_ready)
                    (mkWorld fresh_page []) H1) _ H2).
  - split; [exact H3|].
    exact (proj2 (buttons_follow_the_outcome fresh_page 11 unreachable
                    (mkWorld fresh_page []) H1) H3).
Defined.

Lemma resolution_is_split_at_x_witness :
  ~ In 120%N (str "1024") /\
  ~ In 120%N (str "768") /\
  getResolutionDimensions (str "1024" ++ 120%N :: str "768") =
    (JNum (Number_of_string (str "1024")), JNum (Number_of_string (str "768"))) /\
  getResolutionDimensions (str "1024") =
    (JNum (Number_of_string (str "1024")), JUndefined).
Proof.
  assert (H1 : ~ In 120%N (str "1024")) by (vm_compute; intuition discriminate).
  assert (H2 : ~ In 120%N (str "768")) by (vm_compute; intuition discriminate).
  split; [exact H1|]. split; [exact H2|]. split.
  - exact (proj1 (resolution_is_split_at_x (str "1024") (str "768") H1) H2).
  - exact (proj2 (resolution_is_split_at_x (str "1024") (str "768") H1)).
Defined.


(** The anime preset on "  a cat,  ": the prompt is cleaned and extended, the
    negative prompt is put behind the preset's; a second click changes
    neither. *)
Example anime_cat :
  prompt (state (applyStylePreset (str "anime") cat_screen)) =
    str "a cat" ++ fst (style_keywords (str "anime")) /\
  negativePrompt (state (applyStylePreset (str "anime") cat_screen)) =
    snd (style_keywords (str "anime")) ++ str ", blurry" /\
  state (applyStylePreset (str "anime") (applyStylePreset (str "anime") cat_screen)) =
    state (applyStylePreset (str "anime") cat_screen).
Proof. repeat split; vm_compute; reflexivity. Qed.

Lemma earlier_keywords_stay_witness :
  includes (prompt (state (applyStylePreset (str "anime") cat_screen)))
           (fst (style_keywords (str "anime"))) = true /\
  includes (prompt (state (applyStylePreset (str "comic")
                             (applyStylePreset (str "anime") cat_screen))))
           (fst (style_keywords (str "anime"))) = true.
Proof.
  assert (H : includes (prompt (state (applyStylePreset (str "anime") cat_screen)))
                       (fst (style_keywords (str "anime"))) = true)
    by (vm_compute; reflexivity).
  split; [exact H|].
  exact (earlier_keywords_stay (str "anime") (str "comic")
           (applyStylePreset (str "anime") cat_screen) H).
Defined.

Lemma download_name_part_is_safe_witness :
  absent_string (Some []) = true /\
  safePromptPart (Some []) = str "generated".
Proof.
  assert (H : absent_string (Some []) = true) by reflexivity.
  split; [exact H|].
  exact (proj2 (proj2 (download_name_part_is_safe (Some []))) H).
Defined.

Lemma download_extension_is_never_empty_witness :
  ~ In 47%N (str "image") /\
  ~ In 47%N (str "svg+xml") /\
  str "svg+xml" <> [] /\
  fileExtension (str "image" ++ 47%N :: str "svg+xml") = str "svg+xml" /\
  fileExtension (str "image") = str "png".
Proof.
  assert (H1 : ~ In 47%N (str "image")) by (vm_compute; intuition discriminate).
  assert (H2 : ~ In 47%N (str "svg+xml")) by (vm_compute; intuition discriminate).
  assert (H3 : str "svg+xml" <> []) by (vm_compute; discriminate).
  split; [exact H1|]. split; [exact H2|]. split; [exact H3|]. split.
  - exact (proj1 (proj2 (proj2 (download_extension_is_never_empty (str "image"))))
             (str "image") (str "svg+xml") H1 H2 H3).
  - exact (proj2 (proj2 (proj2 (download_extension_is_never_empty (str "image")))) H1).
Defined.

Lemma newest_entry_reloads_the_result_witness :
  generation_succeeds fresh_page (always image_ready) (JStr (str "https://x/img.png")) /\
  exists newest rest,
    generationHistory (ui (snd (handleGenerateClick fresh_page 11 (always image_ready)
                                  (mkWorld fresh_page []))))
      = newest :: rest /\
    state (loadFromHistory newest
             (mkScreen (ui (snd (handleGenerateClick fresh_page 11
                                   (always image_ready) (mkWorld fresh_page []))))
                       plain_view))
      = with_prompt (prompt fresh_page)
          (ui (snd (handleGenerateClick fresh_page 11 (always image_ready)
                      (mkWorld fresh_page [])))).
Proof.
  assert (H := fresh_page_succeeds).
  split; [exact H|].
  exact (newest_entry_reloads_the_result fresh_page 11 (always image_ready)
           (mkWorld fresh_page []) plain_view _ H).
Defined.

Lemma history_entry_can_be_used_witness :
  well_formed (state (mkScreen busy_page plain_view)) /\
  In (old_entry 3) (generationHistory (state (mkScreen busy_page plain_view))) /\
  well_formed (state (loadFromHistory (old_entry 3) (mkScreen busy_page plain_view))) /\
  generationHistory (state (loadFromHistory (old_entry 3)
                              (mkScreen busy_page plain_view)))
    = generationHistory (state (mkScreen busy_page plain_view)) /\
  copy_disabled (state (loadFromHistory (old_entry 3)
                          (mkScreen busy_page plain_view))) = false /\
  generate_disabled (state (loadFromHistory (old_entry 3)
                              (mkScreen busy_page plain_view)))
    = isLoading (state (mkScreen busy_page plain_view)) /\
  download_disabled (state (loadFromHistory (old_entry 3)
                              (mkScreen busy_page plain_view)))
    = isLoading (state (mkScreen busy_page plain_view)).
Proof.
  assert (H1 : well_formed (state (mkScreen busy_page plain_view)))
    by exact busy_page_is_well_formed.
  assert (H2 : In (old_entry 3)
                  (generationHistory (state (mkScreen busy_page plain_view))))
    by (simpl; tauto).
  split; [exact H1|]. split; [exact H2|].
  exact (history_entry_can_be_used (mkScreen busy_page plain_view) (old_entry 3) H1 H2).
Defined.

Lemma download_is_contained_witness :
  no_image fresh_page = true /\
  snd (handleDownloadImage fresh_page 12 image_served (str "blob:new")
         (empty_browser fresh_page)) = empty_browser fresh_page /\
  no_image downloaded_page = false /\
  isLoading (page (snd (handleDownloadImage downloaded_page 12 image_gone
                          (str "blob:new") (empty_browser downloaded_page)))) = false.
Proof.
  assert (H1 : no_image fresh_page = true) by reflexivity.
  assert (H2 : no_image downloaded_page = false) by reflexivity.
  split; [exact H1|]. split.
  - exact (proj1 (proj2 (proj2 (proj2 (proj2
             (download_is_contained fresh_page 12 image_served (str "blob:new")
                (empty_browser fresh_page)))))) H1).
  - split; [exact H2|].
    exact (proj2 (proj2 (proj2 (proj2 (proj2
             (download_is_contained downloaded_page 12 image_gone (str "blob:new")
                (empty_browser downloaded_page)))))) H2).
Defined.

Lemma downloaded_page_gets_nothing :
  ~ exists url blob_type, image_arrives downloaded_page image_gone url blob_type.
Proof.
  intros (url & blob_type & (image & r & _ & _ & _ & Hnet & Hok & _)).
  unfold image_gone in Hnet. inversion Hnet; subst r. discriminate Hok.
Qed.

Lemma failed_download_is_reported_witness :
  generatedImageUrl downloaded_page = Some (JStr (str "https://x/img.png")) /\
  truthy (JStr (str "https://x/img.png") : value) = true /\
  ~ (200 <= 404 < 300)%Z /\
  snd (handleDownloadImage downloaded_page 12 image_gone (str "blob:new")
         (empty_browser downloaded_page)) =
    download_failed downloaded_page
      (str "Failed to fetch image (" ++ integer_to_string 404
       ++ str " " ++ str "Not Found" ++ str ")")
      [str "https://x/img.png"] (empty_browser downloaded_page) /\
  (~ exists url blob_type, image_arrives downloaded_page image_gone url blob_type) /\
  saved (snd (handleDownloadImage downloaded_page 12 image_gone (str "blob:new")
                (empty_browser downloaded_page))) = [] /\
  exists message,
    error (page (snd (handleDownloadImage downloaded_page 12 image_gone
                        (str "blob:new") (empty_browser downloaded_page))))
      = Some (str "Download failed: " ++ message).
Proof.
  assert (H1 : generatedImageUrl downloaded_page = Some (JStr (str "https://x/img.png")))
    by reflexivity.
  assert (H2 : truthy (JStr (str "https://x/img.png") : value) = true) by reflexivity.
  assert (H3 : ~ (200 <= 404 < 300)%Z) by lia.
  assert (H4 := downloaded_page_gets_nothing).
  split; [exact H1|]. split; [exact H2|]. split; [exact H3|]. split.
  - exact (proj1 (failed_download_is_reported downloaded_page 12 image_gone
                    (str "blob:new") (empty_browser downloaded_page) _ H1 H2)
             (str "https://x/img.png")
             (mkImage 404 (str "Not Found")
                (Throw (TypeError (str "Body is unusable"))))
             eq_refl eq_refl H3).
  - split; [exact H4|].
    exact (proj2 (failed_download_is_reported downloaded_page 12 image_gone
                    (str "blob:new") (empty_browser downloaded_page) _ H1 H2) H4).
Defined.

Lemma downloaded_page_gets_the_image :
  image_arrives downloaded_page image_served (str "https://x/img.png") (str "image/png").
Proof.
  exists (JStr (str "https://x/img.png")),
         (mkImage 200 (str "OK") (Normal (str "image/png"))).
  repeat split; reflexivity.
Qed.

Lemma download_saves_one_file_witness :
  image_arrives downloaded_page image_served (str "https://x/img.png") (str "image/png") /\
  handleDownloadImage downloaded_page 1700000000000 image_served (str "blob:new")
    (empty_browser downloaded_page) =
    (Normal tt,
     download_done downloaded_page 1700000000000 (str "https://x/img.png")
       (str "image/png") (str "blob:new") (empty_browser downloaded_page)).
Proof.
  assert (H := downloaded_page_gets_the_image).
  split; [exact H|].
  exact (proj1 (download_saves_one_file downloaded_page 1700000000000 image_served
                  (str "blob:new") (empty_browser downloaded_page)
                  (str "https://x/img.png") (str "image/png") H)).
Defined.

(** The file that download saves, and the blob URL it revokes. *)
Example red_cube_file :
  saved (download_done downloaded_page 1700000000000 (str "https://x/img.png")
           (str "image/png") (str "blob:new") (empty_browser downloaded_page)) =
    [ (str "blob:new", str "a_red_cube__8k__1700000000000.png") ] /\
  revoked (download_done downloaded_page 1700000000000 (str "https://x/img.png")
             (str "image/png") (str "blob:new") (empty_browser downloaded_page)) =
    [ str "blob:old" ].
Proof. split; vm_compute; reflexivity. Qed.

Lemma copy_writes_the_prompt_of_record_witness :
  generation_succeeds fresh_page (always image_ready) (JStr (str "https://x/img.png")) /\
  clipboard_accepts (prompt fresh_page) = Normal tt /\
  handleCopyPrompt
    (ui (snd (handleGenerateClick fresh_page 11 (always image_ready)
                (mkWorld fresh_page []))))
    (Some clipboard_accepts) (empty_desk shown_page) =
    (Normal tt,
     mkDesk (setIsCopied true (screen (empty_desk shown_page)))
            (clipboard (empty_desk shown_page) ++ [prompt fresh_page])
            (timers (empty_desk shown_page) ++ [(ResetCopied, 2000%Z)])) /\
  clipboard_refuses (prompt fresh_page)
    = Throw (mkError (str "NotAllowedError") (str "Write permission denied.")) /\
  handleCopyPrompt
    (ui (snd (handleGenerateClick fresh_page 11 (always image_ready)
                (mkWorld fresh_page []))))
    (Some clipboard_refuses) (empty_desk shown_page) =
    (Normal tt,
     mkDesk (mkScreen (with_error (Some (str "Could not copy prompt."))
                                  (state (screen (empty_desk shown_page))))
                      (view (screen (empty_desk shown_page))))
            (clipboard (empty_desk shown_page)) (timers (empty_desk shown_page))).
Proof.
  assert (H1 := fresh_page_succeeds).
  assert (H2 : clipboard_accepts (prompt fresh_page) = Normal tt) by reflexivity.
  assert (H3 : clipboard_refuses (prompt fresh_page)
    = Throw (mkError (str "NotAllowedError") (str "Write permission denied.")))
    by reflexivity.
  split; [exact H1|]. split; [exact H2|]. split.
  - exact (proj1 (proj1 (copy_writes_the_prompt_of_record fresh_page 11
                           (always image_ready) (mkWorld fresh_page []) _
                           clipboard_accepts (empty_desk shown_page) H1) H2)).
  - split; [exact H3|].
    exact (proj2 (copy_writes_the_prompt_of_record fresh_page 11
                    (always image_ready) (mkWorld fresh_page []) _
                    clipboard_refuses (empty_desk shown_page) H1) _ H3).
Defined.

End MoreExamples.

(* ================================================================== *)
(** ** What holds in every state of the page *)
(* ================================================================== *)

Module PageInvariant.
Import Js JsFacts Composer Spec Sample Page PageSpec MoreSamples StringFacts.
Import ComposerProofs ComposerExtras PageProofs.

Section Handlers.
Context {E : Engine}.

(** Being well formed is a matter of the result on display only. *)
Lemma well_formed_same_result (s s' : State) :
  same_result s s' -> well_formed s -> well_formed s'.
Proof.
  intros (Himg & _ & Hhist) (Hgood & Hlen & Hu). unfold well_formed.
  rewrite Hhist, Himg. repeat split; assumption.
Qed.

(** Copy changes nothing of the state but the error. *)
Lemma copy_keeps_the_result (s : State)
    (api : option (jsstring -> completion unit)) (d : Desk) :
  same_result (state (screen d)) (state (screen (snd (handleCopyPrompt s api d)))).
Proof.
  unfold handleCopyPrompt, same_result.
  destruct (lastGeneratedPrompt s) as [text|]; [|repeat split; reflexivity].
  destruct (string_truthy text); cbn [negb]; [|repeat split; reflexivity].
  destruct api as [writeText|]; [|repeat split; reflexivity].
  unfold try_catch, bind, clipboard_writeText, on_screen, setTimeout, modify.
  destruct (writeText text); repeat split; reflexivity.
Qed.

Lemma event_keeps_state_well_formed (st st' : State) :
  event st st' -> well_formed st -> well_formed st'.
Proof.
  intros Hev Hwf. destruct Hev.
  - apply click_keeps_well_formed. exact Hwf.
  - destruct (contained_download s now net blobUrl b) as (_ & _ & Hres & _).
    exact (well_formed_same_result _ _ Hres Hwf).
  - exact (well_formed_same_result _ _ (copy_keeps_the_result s api d) Hwf).
  - apply (loaded_entry_well_formed sc h Hwf H).
  - refine (well_formed_same_result _ _ _ Hwf).
    unfold applyStylePreset, same_result.
    destruct (style_keywords preset).
    destruct (negb (jsstring_eqb preset (str "none"))); repeat split; reflexivity.
  - refine (well_formed_same_result _ _ _ Hwf).
    unfold same_result. repeat split; reflexivity.
  - refine (well_formed_same_result _ _ _ Hwf).
    unfold same_result. repeat split; reflexivity.
  - refine (well_formed_same_result _ _ _ Hwf).
    unfold same_result. repeat split; reflexivity.
Qed.

(** X27. In every state the page can reach from its first render, by any
    sequence of clicks, edits and handler runs (one at a time, whatever the
    network, the clipboard and the clock do), the history has at most ten
    entries, every entry has an image that is there and a prompt that is
    not blank, and the displayed image, when there is one, is there. *)
Theorem reachable_states_are_well_formed :
  forall (default_steps default_guidance : number) (st : State),
    reachable default_steps default_guidance st ->
    well_formed st /\ List.length (generationHistory st) <= 10.
Proof.
  intros ds dg st Hreach.
  assert (Hwf : well_formed st).
  { induction Hreach as [|st st' _ IH Hev].
    - unfold well_formed, initial_state. cbn.
      split; [constructor|]. split; [lia|]. intros u Hu. discriminate Hu.
    - exact (event_keeps_state_well_formed st st' Hev IH). }
  split; [exact Hwf|]. destruct Hwf as (_ & Hlen & _). exact Hlen.
Qed.

(** X28. Every option of the resolution selector gives the payload a width
    and a height that are numbers, and the same number. *)
Theorem every_resolution_has_dimensions :
  forall s : State,
    In (resolution s) RESOLUTIONS ->
    exists side,
      In side [ str "512"; str "768"; str "1024" ] /\
      opt_get (payloadForApiRoute s) (str "width") = JNum (Number_of_string side) /\
      opt_get (payloadForApiRoute s) (str "height") = JNum (Number_of_string side).
Proof.
  intros s H. unfold payloadForApiRoute.
  unfold RESOLUTIONS in H. simpl in H.
  destruct H as [H|[H|[H|[]]]]; rewrite <- H.
  - exists (str "512"). split; [simpl; tauto|]. split; vm_compute; reflexivity.
  - exists (str "768"). split; [simpl; tauto|]. split; vm_compute; reflexivity.
  - exists (str "1024"). split; [simpl; tauto|]. split; vm_compute; reflexivity.
Qed.

(** X29. Choosing any of the example prompts puts it in the prompt box,
    clears the error and closes the suggestions; the Generate button is
    then enabled unless something is loading. *)
Theorem example_prompt_enables_generate :
  forall (text : jsstring) (sc : Screen),
    In text EXAMPLE_PROMPTS ->
    let after := applyExamplePrompt text sc in
    prompt (state after) = text /\
    error (state after) = None /\
    showSuggestions (view after) = false /\
    generate_disabled (state after) = isLoading (state sc).
Proof.
  intros text sc H after. subst after.
  split; [reflexivity|]. split; [reflexivity|]. split; [reflexivity|].
  unfold generate_disabled, applyExamplePrompt.
  cbn [state prompt isLoading with_error with_prompt].
  rewrite guard_blank.
  assert (Hb : blank text = false).
  { unfold EXAMPLE_PROMPTS in H. simpl in H.
    destruct H as [H|[H|[H|[H|[H|[]]]]]]; rewrite <- H; vm_compute; reflexivity. }
  rewrite Hb. apply orb_false_r.
Qed.

End Handlers.

Lemma shown_page_is_reachable : reachable (Some 30%Z) (Some 7%Z) shown_page.
Proof.
  assert (H1 : reachable (Some 30%Z) (Some 7%Z) fresh_page).
  { exact (reach_event (reach_initial (Some 30%Z) (Some 7%Z))
             (ev_edit (initial_state (Some 30%Z) (Some 7%Z))
                (str "a red cube") [] (str "1024x1024") [Some 30%Z] [Some 7%Z])). }
  exact (reach_event H1
           (ev_generate fresh_page 11 (always image_ready) (mkWorld fresh_page []))).
Qed.

Lemma reachable_states_are_well_formed_witness :
  reachable (Some 30%Z) (Some 7%Z) shown_page /\
  well_formed shown_page /\
  List.length (generationHistory shown_page) <= 10.
Proof.
  assert (H := shown_page_is_reachable).
  split; [exact H|].
  exact (reachable_states_are_well_formed (Some 30%Z) (Some 7%Z) shown_page H).
Defined.

Lemma every_resolution_has_dimensions_witness :
  In (resolution busy_page) RESOLUTIONS /\
  exists side,
    In side [ str "512"; str "768"; str "1024" ] /\
    opt_get (payloadForApiRoute busy_page) (str "width")
      = JNum (Number_of_string side) /\
    opt_get (payloadForApiRoute busy_page) (str "height")
      = JNum (Number_of_string side).
Proof.
  assert (H : In (resolution busy_page) RESOLUTIONS) by (left; reflexivity).
  split; [exact H|].
  exact (every_resolution_has_dimensions busy_page H).
Defined.

Lemma example_prompt_enables_generate_witness :
  In (nth 0 EXAMPLE_PROMPTS []) EXAMPLE_PROMPTS /\
  prompt (state (applyExamplePrompt (nth 0 EXAMPLE_PROMPTS []) cat_screen))
    = nth 0 EXAMPLE_PROMPTS [] /\
  error (state (applyExamplePrompt (nth 0 EXAMPLE_PROMPTS []) cat_screen)) = None /\
  showSuggestions (view (applyExamplePrompt (nth 0 EXAMPLE_PROMPTS []) cat_screen))
    = false /\
  generate_disabled (state (applyExamplePrompt (nth 0 EXAMPLE_PROMPTS []) cat_screen))
    = isLoading (state cat_screen).
Proof.
  assert (H : In (nth 0 EXAMPLE_PROMPTS []) EXAMPLE_PROMPTS) by (left; reflexivity).
  split; [exact H|].
  exact (example_prompt_enables_generate (nth 0 EXAMPLE_PROMPTS []) cat_screen H).
Defined.

End PageInvariant.
